(** * wheelhouse_uploader.upload: a shallow embedding of the Uploader class

    The development follows [src/wheelhouse_uploader/upload.py].  The
    Python code talks to three outside parties: the libcloud storage
    driver, the local file system and a few library functions (hashlib,
    json, string formatting).  The storage driver is modelled by an
    in-memory store whose calls can be made to fail by a schedule of
    injected exceptions; the file system and the library functions are
    parameters.  Python exceptions are an explicit error result, and the
    methods of [Uploader] are functions in a state-and-error monad over
    the store. *)

From Stdlib Require Import ZArith String Ascii List Sorted Strings.Byte OrderedTypeEx.
From stdpp Require Import gmap strings list fin_maps sorting.

Set Warnings "-register-all,-clear-no-such-hyp".
Open Scope string_scope.
Open Scope Z_scope.

(** ** Exceptions and results *)

(** The exception classes the code names, and those that the calls it
    makes can raise.  All of them derive from Python's [Exception]. *)
Inductive exn : Type :=
| InvalidCredsError
| ContainerDoesNotExistError
| ObjectDoesNotExistError
| ContainerAlreadyExistsError
| OSError
| ValueError
| AttributeError
| LibcloudError (msg : string).

#[global] Instance exn_eq_dec : EqDecision exn.
Proof. solve_decision. Defined.

Inductive result (A : Type) : Type :=
| Ok (a : A)
| Raise (e : exn).
Arguments Ok {A} a.
Arguments Raise {A} e.


(** ** JSON values, as [json.load] returns them and [json.dumps] takes them.
    A Python dict with string keys is a finite map. *)
Inductive json : Type :=
| JNull
| JBool (b : bool)
| JInt (z : Z)
| JStr (s : string)
| JList (l : list json)
| JDict (d : gmap string json).

Abbreviation bytes := (list Byte.byte).

#[global] Instance byte_eq_decision : EqDecision Byte.byte.
Proof.
  intros x y. destruct (Byte.eqb x y) eqn:E.
  - left. by apply Byte.byte_dec_bl.
  - right. by apply Byte.eqb_false.
Defined.

(** ** Python string and path helpers *)

(** [s.startswith(p)] *)
Definition startswith (s p : string) : bool := String.prefix p s.

(** [s.endswith(suf)] *)
Definition endswith (s suf : string) : bool :=
  (String.length suf <=? String.length s)%nat &&
  String.eqb
    (substring (String.length s - String.length suf) (String.length suf) s)
    suf.

(** [s.endswith(tuple)]: true when [s] ends with one of the suffixes. *)
Definition endswith_any (s : string) (sufs : list string) : bool :=
  existsb (endswith s) sufs.

Definition sep : ascii := "/"%char.

Fixpoint has_sep (s : string) : bool :=
  match s with
  | EmptyString => false
  | String c r => Ascii.eqb c sep || has_sep r
  end.

(** [posixpath.join(a, b)] *)
Definition os_path_join (a b : string) : string :=
  if startswith b "/" then b
  else if String.eqb a EmptyString || endswith a "/" then a ++ b
  else a ++ "/" ++ b.

(** [posixpath.basename(p)]: what follows the last separator. *)
Fixpoint os_path_basename (p : string) : string :=
  match p with
  | EmptyString => EmptyString
  | String c r =>
      if has_sep r then os_path_basename r
      else if Ascii.eqb c sep then r else p
  end.

(** [sorted] on a list of strings: the order is the lexicographic one on
    character codes. *)
Definition str_le (s t : string) : Prop := String.leb s t = true.

#[global] Instance str_le_dec s t : Decision (str_le s t).
Proof. unfold str_le. apply _. Defined.

Definition sorted (l : list string) : list string := merge_sort str_le l.

(** ** The outside world *)

(** Library functions the module imports: [hashlib.sha256(..).hexdigest()],
    [json.dumps(..).encode('utf-8')], [bytes.decode('utf-8')] followed by
    [json.load] ([None] when either raises, which is a [ValueError]), and
    [str] as applied by ['%s'] formatting to a value that is not a string. *)
Record PyLib : Type := {
  sha256_hexdigest : bytes -> string;
  json_dumps : json -> bytes;
  json_load : bytes -> option json;
  py_str : json -> string;
}.

(** The local file system as the module reads it: [os.listdir],
    [os.path.isdir] and [open(path, 'rb').read()]; [None] is an [OSError]. *)
Record FileSystem : Type := {
  listdir : string -> option (list string);
  isdir : string -> bool;
  read_file : string -> option bytes;
}.

(** What the store has seen: every successful mutation, oldest first. *)
Inductive StoreEvent : Type :=
| EvCreateContainer (container : string)
| EvPut (container name : string) (content : bytes)
| EvDelete (container name : string).

(** The remote store.  [containers] maps a container name to its objects;
    [faults] is the schedule of injected failures, one entry consumed by
    each driver call ([Some e]: the call raises [e] and does nothing). *)
Record Env : Type := mkEnv {
  containers : gmap string (gmap string bytes);
  faults : list (option exn);
  history : list StoreEvent;
}.

Definition set_containers (cs : gmap string (gmap string bytes)) (w : Env) : Env :=
  mkEnv cs (faults w) (history w).
Definition set_faults (fs : list (option exn)) (w : Env) : Env :=
  mkEnv (containers w) fs (history w).
Definition record (ev : StoreEvent) (w : Env) : Env :=
  mkEnv (containers w) (faults w) (history w ++ [ev]).

(** The objects of a container (none when the container does not exist). *)
Definition objects (w : Env) (c : string) : gmap string bytes :=
  default ∅ (containers w !! c).

(** ** The state-and-error monad *)

Definition Action (A : Type) : Type := Env -> result A * Env.

#[global] Instance Action_ret : MRet Action := fun A a w => (Ok a, w).
#[global] Instance Action_bind : MBind Action := fun A B f m w =>
  match m w with
  | (Ok a, w') => f a w'
  | (Raise e, w') => (Raise e, w')
  end.

(** A pure computation that may raise. *)
Definition lift {A} (r : result A) : Action A := fun w => (r, w).

(** [try: m  except E: h], where [handles] recognises the class [E]. *)
Definition try_except {A} (m : Action A) (handles : exn -> bool)
    (h : Action A) : Action A := fun w =>
  match m w with
  | (Ok a, w') => (Ok a, w')
  | (Raise e, w') => if handles e then h w' else (Raise e, w')
  end.

Definition is_ContainerDoesNotExistError (e : exn) : bool :=
  match e with ContainerDoesNotExistError => true | _ => false end.
Definition is_ObjectDoesNotExistError (e : exn) : bool :=
  match e with ObjectDoesNotExistError => true | _ => false end.
Definition is_InvalidCredsError (e : exn) : bool :=
  match e with InvalidCredsError => true | _ => false end.

(** ** The libcloud driver *)

(** Every driver call first consults the fault schedule. *)
Definition driver_call {A} (op : Action A) : Action A := fun w =>
  match faults w with
  | [] => op w
  | None :: fs => op (set_faults fs w)
  | Some e :: fs => (Raise e, set_faults fs w)
  end.

(** A container handle is the container's name; an object handle is the
    container's name and the object's name. *)
Record Object : Type := mkObject { object_container : string; object_name : string }.

(** [get_driver(provider)(username, secret, region=region)] *)
Definition make_driver : Action unit := driver_call (mret tt).

Definition get_container (name : string) : Action string :=
  driver_call (fun w =>
    match containers w !! name with
    | Some _ => (Ok name, w)
    | None => (Raise ContainerDoesNotExistError, w)
    end).

Definition create_container (name : string) : Action string :=
  driver_call (fun w =>
    match containers w !! name with
    | Some _ => (Raise ContainerAlreadyExistsError, w)
    | None =>
        (Ok name,
         record (EvCreateContainer name)
           (set_containers (<[name := ∅]> (containers w)) w))
    end).

Definition get_object (container name : string) : Action Object :=
  driver_call (fun w =>
    match containers w !! container with
    | None => (Raise ContainerDoesNotExistError, w)
    | Some objs =>
        match objs !! name with
        | Some _ => (Ok (mkObject container name), w)
        | None => (Raise ObjectDoesNotExistError, w)
        end
    end).

(** [obj.as_stream()], read to the end. *)
Definition as_stream (obj : Object) : Action bytes :=
  driver_call (fun w =>
    match objects w (object_container obj) !! object_name obj with
    | Some content => (Ok content, w)
    | None => (Raise ObjectDoesNotExistError, w)
    end).

Definition upload_object_via_stream (content : bytes)
    (container object_name : string) : Action unit :=
  driver_call (fun w =>
    match containers w !! container with
    | None => (Raise ContainerDoesNotExistError, w)
    | Some objs =>
        (Ok tt,
         record (EvPut container object_name content)
           (set_containers
              (<[container := <[object_name := content]> objs]> (containers w)) w))
    end).

(** The names of the objects of a container, in the store's order. *)
Definition list_container_objects (container : string) : Action (list string) :=
  driver_call (fun w =>
    match containers w !! container with
    | None => (Raise ContainerDoesNotExistError, w)
    | Some objs => (Ok (map_to_list objs).*1, w)
    end).

Definition delete_object (obj : Object) : Action unit :=
  driver_call (fun w =>
    match containers w !! object_container obj with
    | None => (Raise ContainerDoesNotExistError, w)
    | Some objs =>
        match objs !! object_name obj with
        | None => (Raise ObjectDoesNotExistError, w)
        | Some _ =>
            (Ok tt,
             record (EvDelete (object_container obj) (object_name obj))
               (set_containers
                  (<[object_container obj := delete (object_name obj) objs]>
                     (containers w)) w))
        end
    end).

(** ** The Uploader class *)

Record Uploader : Type := {
  username : string;
  secret : string;
  provider_name : string;
  region : string;
  update_index : bool;
  max_workers : Z;
  delete_previous_dev_packages : bool;
}.

Definition index_filename : string := "index.html".
Definition metadata_filename : string := "metadata.json".

Definition dquote : string := String "034"%char EmptyString.
Definition newline : string := String "010"%char EmptyString.

(** [d.get(k)]: Python's [None] is [JNull]. *)
Definition dict_get (d : gmap string json) (k : string) : json :=
  default JNull (d !! k).

(** [o.get(k)] for an arbitrary JSON value: only a dict has the method. *)
Definition json_get (o : json) (k : string) : result json :=
  match o with
  | JDict d => Ok (dict_get d k)
  | _ => Raise AttributeError
  end.

(** [metadata.update(local_metadata)]: the keys of [local_metadata] win. *)
Definition dict_update (metadata local_metadata : gmap string json)
    : gmap string json :=
  local_metadata ∪ metadata.

(** [metadata.update(..)] on what [json.load] returned: only a dict has
    the method. *)
Definition json_update (metadata : json) (local_metadata : gmap string json)
    : result (gmap string json) :=
  match metadata with
  | JDict d => Ok (dict_update d local_metadata)
  | _ => Raise AttributeError
  end.

(** What the retry wrapper does that the store does not see. *)
Inductive TraceEvent : Type :=
| Attempt
| Sleep (seconds : Z).

#[global] Instance TraceEvent_eq_dec : EqDecision TraceEvent.
Proof. solve_decision. Defined.

(** [as_completed] and [future.result()]: the first failed task's
    exception is raised. *)
Fixpoint first_error (rs : list (result unit)) : result unit :=
  match rs with
  | [] => Ok tt
  | Ok _ :: rest => first_error rest
  | Raise e :: _ => Raise e
  end.

(** The executor runs every submitted task, whether or not an earlier one
    failed: leaving the [with] block waits for all of them.  Tasks are run
    one after the other in submission order, which is what the pool does
    with a single worker; [max_workers], which bounds how many tasks run at
    the same time, plays no part here. *)
Fixpoint run_tasks (tasks : list (Action unit)) (w : Env)
    : list (result unit) * Env :=
  match tasks with
  | [] => ([], w)
  | t :: rest =>
      let '(r, w1) := t w in
      let '(rs, w2) := run_tasks rest w1 in
      (r :: rs, w2)
  end.

Section Uploader.
Context (lib : PyLib) (fs : FileSystem).

(** [wheelhouse_uploader.utils.matching_dev_filenames], which is not part
    of this module: a pure function of the reference file name and the
    existing file names. *)
Variable matching_dev_filenames : string -> list string -> list string.

Variable self : Uploader.

(** [dict(sha256=sha256(content).hexdigest(), size=len(content))] *)
Definition file_metadata (content : bytes) : json :=
  JDict (<["sha256" := JStr (sha256_hexdigest lib content)]>
         (<["size" := JInt (Z.of_nat (length content))]> ∅)).

(** The body of the loop of [_scan_local_files], over the sorted names. *)
Fixpoint scan_loop (local_folder : string) (names : list string)
    (filepaths : list string) (local_metadata : gmap string json)
    : result (list string * gmap string json) :=
  match names with
  | [] => Ok (filepaths, local_metadata)
  | filename :: rest =>
      if startswith filename "." then
        scan_loop local_folder rest filepaths local_metadata
      else
        let filepath := os_path_join local_folder filename in
        if isdir fs filepath then
          scan_loop local_folder rest filepaths local_metadata
        else
          match read_file fs filepath with
          | None => Raise OSError
          | Some content =>
              scan_loop local_folder rest (filepaths ++ [filepath])
                (<[filename := file_metadata content]> local_metadata)
          end
  end.

Definition _scan_local_files (local_folder : string)
    : result (list string * gmap string json) :=
  match listdir fs local_folder with
  | None => Raise OSError
  | Some names => scan_loop local_folder (sorted names) [] ∅
  end.

Definition ignore_list : list string := [".json"; ".html"].

Definition _get_package_filenames (container : string)
    : Action (list string) :=
  objects_ ← list_container_objects container;
  mret (List.filter (fun name => negb (endswith_any name ignore_list)) objects_).

(** ['%s' % v] *)
Definition format_s (v : json) : string :=
  match v with
  | JStr s => s
  | _ => py_str lib v
  end.

(** One pass of the loop of [_update_index]: the text written for
    [filename], or the [AttributeError] of [.get] on a manifest entry
    that is not a dict. *)
Definition index_line (metadata : gmap string json) (filename : string)
    : result string :=
  let object_metadata := default (JDict ∅) (metadata !! filename) in
  match json_get object_metadata "sha256" with
  | Raise e => Raise e
  | Ok JNull =>
      Ok ("<li><a href=" ++ dquote ++ filename ++ dquote ++ ">"
          ++ filename ++ "<a></li>" ++ newline)
  | Ok digest =>
      Ok ("<li><a href=" ++ dquote ++ filename ++ "#sha256="
          ++ format_s digest ++ dquote ++ ">"
          ++ filename ++ "<a></li>" ++ newline)
  end.

Fixpoint index_loop (metadata : gmap string json)
    (package_filenames : list string) (payload : string) : result string :=
  match package_filenames with
  | [] => Ok payload
  | filename :: rest =>
      match index_line metadata filename with
      | Raise e => Raise e
      | Ok line => index_loop metadata rest (payload ++ line)
      end
  end.

Definition _update_index (container : string)
    (metadata : gmap string json) : Action unit :=
  package_filenames ← _get_package_filenames container;
  payload ← lift (index_loop metadata package_filenames
                    ("<html><body><p>" ++ newline));
  upload_object_via_stream
    (list_byte_of_string (payload ++ "</p></body></html>" ++ newline))
    container index_filename.

Definition _upload_metadata_file (container : string)
    (metadata : gmap string json) : Action unit :=
  upload_object_via_stream (json_dumps lib (JDict metadata))
    container metadata_filename.

(** [try: obj = container.get_object(filename); driver.delete_object(obj)
    except ObjectDoesNotExistError: pass] *)
Definition delete_one (container filename : string) : Action unit :=
  try_except
    (obj ← get_object container filename; delete_object obj)
    is_ObjectDoesNotExistError
    (mret tt).

(** The loop over [previous_dev_filenames] at the end of [upload_file]. *)
Fixpoint delete_previous (container : string) (filenames : list string)
    : Action unit :=
  match filenames with
  | [] => mret tt
  | filename :: rest =>
      delete_one container filename;; delete_previous container rest
  end.

Definition upload_file (filepath container_name : string) : Action unit :=
  make_driver;;
  let filename := os_path_basename filepath in
  container ← get_container container_name;
  previous_dev_filenames ←
    (if delete_previous_dev_packages self then
       existing_filenames ← _get_package_filenames container;
       mret (matching_dev_filenames filename existing_filenames)
     else mret []);
  byte_stream ←
    lift (match read_file fs filepath with
          | Some content => Ok content
          | None => Raise OSError
          end);
  upload_object_via_stream byte_stream container filename;;
  if delete_previous_dev_packages self
     && negb (bool_decide (previous_dev_filenames = []))
  then delete_previous container previous_dev_filenames
  else mret tt.

Definition _upload_files (filepaths : list string) (container_name : string)
    : Action unit := fun w =>
  let '(rs, w') :=
    run_tasks (map (fun filepath_ => upload_file filepath_ container_name)
                 filepaths) w in
  (first_error rs, w').

(** Lines 61 to 64 of [_try_upload_once]: the container, created when it
    does not exist. *)
Definition ensure_container (container_name : string) : Action string :=
  try_except (get_container container_name)
    is_ContainerDoesNotExistError
    (create_container container_name).

(** Lines 66 to 74 of [_try_upload_once]: the remote manifest, empty when
    there is no metadata object. *)
Definition load_metadata (container : string) : Action json :=
  try_except
    (metadata_obj ← get_object container metadata_filename;
     content ← as_stream metadata_obj;
     lift (match json_load lib content with
           | Some metadata => Ok metadata
           | None => Raise ValueError
           end))
    is_ObjectDoesNotExistError
    (mret (JDict ∅)).

(** Lines 76 to 81 of [_try_upload_once]: scan, merge, upload the
    files, write the manifest, then the index. *)
Definition publish_with (local_folder container_name container : string)
    (metadata : json) : Action unit :=
  '(filepaths, local_metadata) ← lift (_scan_local_files local_folder);
  metadata ← lift (json_update metadata local_metadata);
  _upload_files filepaths container_name;;
  _upload_metadata_file container metadata;;
  if update_index self then _update_index container metadata
  else mret tt.

Definition _try_upload_once (local_folder container_name : string)
    : Action unit :=
  make_driver;;
  container ← ensure_container container_name;
  metadata ← load_metadata container;
  publish_with local_folder container_name container metadata.

End Uploader.

(** ** The retry wrapper *)

Section Retry.
(** The call [self._try_upload_once(local_folder, container)]. *)
Variable attempt : Action unit.

(** [upload], by recursion on the number of retries left: [n] stands for
    [max(retry_on_error, 0)].  Each call of the attempt and each [sleep]
    is written to the trace; what is printed is not modelled. *)
Fixpoint upload_loop (n : nat) (w : Env)
    : result unit * Env * list TraceEvent :=
  match attempt w with
  | (Ok v, w') => (Ok v, w', [Attempt])
  | (Raise e, w') =>
      if is_InvalidCredsError e then (Raise e, w', [Attempt])
      else
        match n with
        | O => (Raise e, w', [Attempt])
        | S n' =>
            let '(r, w'', t) := upload_loop n' w' in
            (r, w'', Attempt :: Sleep 1 :: t)
        end
  end.

Definition upload_with (retry_on_error : Z) (w : Env)
    : result unit * Env * list TraceEvent :=
  upload_loop (Z.to_nat retry_on_error) w.
End Retry.

Definition upload (lib : PyLib) (fs : FileSystem)
    (matching_dev_filenames : string -> list string -> list string)
    (self : Uploader) (local_folder container : string)
    (retry_on_error : Z) (w : Env) : result unit * Env * list TraceEvent :=
  upload_with
    (_try_upload_once lib fs matching_dev_filenames self local_folder container)
    retry_on_error w.

(** The test a directory entry passes to be scanned: it is not hidden
    and it is not a directory. *)
Definition kept_entry (fs : FileSystem) (local_folder n : string) : bool :=
  negb (startswith n ".") && negb (isdir fs (os_path_join local_folder n)).

(** The names [_scan_local_files] keeps, in the order it visits them. *)
Definition scanned_names (fs : FileSystem) (local_folder : string)
    (names : list string) : list string :=
  List.filter (kept_entry fs local_folder) (sorted names).

(** [w'] has the containers, the objects and the history of [w]. *)
Definition same_store (w w' : Env) : Prop :=
  containers w' = containers w /\ history w' = history w.


(** Every run of [m] relates the world it starts in to the world it
    leaves. *)
Definition preserves (P : Env -> Env -> Prop) {A} (m : Action A) : Prop :=
  forall w r w', m w = (r, w') -> P w w'.

(** ** A concrete instance, on which the model can be run *)

Module Example.
Definition b (s : string) : bytes := list_byte_of_string s.

(** The regular files of the directory [dist]. *)
Definition files : gmap string bytes :=
  <["pkg-1.0.dev1.whl" := b "0123456789"]>
    (<["pkg-1.0.dev2.whl" := b "0123456789ab"]> ∅).

Definition fs : FileSystem := {|
  listdir := fun d =>
    if String.eqb d "dist"
    then Some ["pkg-1.0.dev2.whl"; ".hidden"; "sub"; "pkg-1.0.dev1.whl"]
    else None;
  isdir := fun p => String.eqb p "dist/sub";
  read_file := fun p =>
    if startswith p "dist/"
    then files !! substring 5 (String.length p - 5) p
    else None;
|}.

(** A stand-in for the digest. *)
Definition digest (content : bytes) : string :=
  "sha:" ++ string_of_list_byte content.

Definition entry (content : bytes) : json :=
  JDict (<["sha256" := JStr (digest content)]>
         (<["size" := JInt (Z.of_nat (length content))]> ∅)).

Definition is_entry (content : bytes) (j : json) : bool :=
  match j with
  | JDict e =>
      bool_decide (dom e = dom (<["sha256" := tt]> (<["size" := tt]> ∅)
                                : gmap string unit))
      && match e !! "sha256" with
         | Some (JStr s) => String.eqb s (digest content)
         | _ => false
         end
      && match e !! "size" with
         | Some (JInt n) => Z.eqb n (Z.of_nat (length content))
         | _ => false
         end
  | _ => false
  end.

(** Is [j] the manifest of the files [expected]? *)
Definition is_manifest (expected : gmap string bytes) (j : json) : bool :=
  match j with
  | JDict d =>
      bool_decide (dom d = dom expected)
      && forallb (fun kv => match expected !! kv.1 with
                            | Some content => is_entry content kv.2
                            | None => false
                            end) (map_to_list d)
  | _ => false
  end.

(** A codec that knows two documents: the empty manifest and the
    manifest of [files]. *)
Definition lib : PyLib := {|
  sha256_hexdigest := digest;
  json_dumps := fun j =>
    if is_manifest files j then b "manifest of dist"
    else if is_manifest ∅ j then b "{}"
    else b "?";
  json_load := fun x =>
    if bool_decide (x = b "manifest of dist") then Some (JDict (entry <$> files))
    else if bool_decide (x = b "{}") then Some (JDict ∅)
    else None;
  py_str := fun _ => "?";
|}.

(** Earlier development builds: the other files of the series. *)
Definition matching_dev_filenames (reference : string)
    (existing : list string) : list string :=
  List.filter
    (fun n => negb (String.eqb n reference) && startswith n "pkg-1.0.dev")
    existing.

Definition uploader : Uploader := {|
  username := "user";
  secret := "secret";
  provider_name := "S3";
  region := "eu";
  update_index := true;
  max_workers := 4;
  delete_previous_dev_packages := true;
|}.

Definition attempt : Action unit :=
  _try_upload_once lib fs matching_dev_filenames uploader "dist" "wheels".

(** No container yet, no failure scheduled. *)
Definition fresh : Env := mkEnv ∅ [] [].


(** The store after one successful attempt on [fresh]. *)
Definition published : Env := (attempt fresh).2.

(** The container exists and is empty. *)
Definition created : Env :=
  mkEnv (<["wheels" := ∅]> ∅) [] [EvCreateContainer "wheels"].

(** No container yet, and the adapter rejects the credentials. *)
Definition rejecting : Env := mkEnv ∅ [Some InvalidCredsError] [].

Definition filepaths : list string :=
  ["dist/pkg-1.0.dev1.whl"; "dist/pkg-1.0.dev2.whl"].

Definition local_metadata : gmap string json := entry <$> files.


(** A container that holds an older build; the fifth driver call, which
    fetches that build to delete it, finds it gone. *)
Definition old_store : gmap string (gmap string bytes) :=
  <["wheels" := <["pkg-1.0.dev1.whl" := b "old"]> ∅]> ∅.

Definition pruning (calls_done : nat) : Env :=
  mkEnv old_store
    (drop calls_done
       [None; None; None; None; Some ObjectDoesNotExistError]) [].

Definition uploaded : Env :=
  (upload_object_via_stream (b "0123456789ab") "wheels"
     "pkg-1.0.dev2.whl" (pruning 3)).2.
End Example.

(** ** Notions used to state the properties *)

(** From world [w], the attempt fails with the errors [es], one after the
    other and none of them a credential error, and leaves world [w']. *)
Inductive transient_failures (attempt : Action unit)
    : Env -> list exn -> Env -> Prop :=
| tf_nil w : transient_failures attempt w [] w
| tf_cons w e w1 es w' :
    attempt w = (Raise e, w1) ->
    e <> InvalidCredsError ->
    transient_failures attempt w1 es w' ->
    transient_failures attempt w (e :: es) w'.

(** The trace of [k] failed attempts, each followed by the delay, and of
    one more attempt. *)
Fixpoint retry_trace (k : nat) : list TraceEvent :=
  match k with
  | O => [Attempt]
  | S k' => Attempt :: Sleep 1 :: retry_trace k'
  end.

Definition count_attempts (t : list TraceEvent) : nat :=
  length (List.filter (fun ev => bool_decide (ev = Attempt)) t).

Definition count_sleeps (t : list TraceEvent) : nat :=
  length (List.filter (fun ev => bool_decide (ev = Sleep 1)) t).




(** The names of a container's objects that are not reserved. *)
Definition package_names (objs : gmap string bytes) : list string :=
  List.filter (fun name => negb (endswith_any name ignore_list))
    (map_to_list objs).*1.






(** No failure is scheduled. *)
Definition quiet (w : Env) : Prop := faults w = [].


(** ** The CDN entry point *)

(** The driver calls [get_container_cdn_url] makes beyond those of the
    upload path.  What they do to the provider is not the module's
    business: they are arbitrary actions.  [has_ex_enable_static_website]
    is [hasattr(driver, 'ex_enable_static_website')]. *)
Record CdnDriver : Type := {
  has_ex_enable_static_website : bool;
  ex_enable_static_website : string -> string -> Action unit;
  enable_container_cdn : string -> Action bool;
  driver_get_container_cdn_url : string -> Action string;
}.

Definition get_container_cdn_url (cdn : CdnDriver) (container_name : string)
    : Action string :=
  make_driver;;
  container ← get_container container_name;
  (if has_ex_enable_static_website cdn
   then ex_enable_static_website cdn container index_filename
   else mret tt);;
  enable_container_cdn cdn container;;
  driver_get_container_cdn_url cdn container.

(** ** What an attempt may do to the store *)

Definition event_container (ev : StoreEvent) : string :=
  match ev with
  | EvCreateContainer c => c
  | EvPut c _ _ => c
  | EvDelete c _ => c
  end.

Definition is_delete (ev : StoreEvent) : bool :=
  match ev with EvDelete _ _ => true | _ => false end.

(** From [w] to [w'] only the container [cn] was touched, and objects were
    deleted only if [may_delete]: otherwise every name of the container is
    still there and the store saw no deletion. *)
Definition confined (cn : string) (may_delete : bool) (w w' : Env) : Prop :=
  (forall c, c <> cn -> containers w' !! c = containers w !! c)
  /\ (may_delete = false ->
      forall name, is_Some (objects w cn !! name) ->
                   is_Some (objects w' cn !! name))
  /\ exists evs,
       history w' = (history w ++ evs)%list
       /\ Forall (fun ev => event_container ev = cn
                            /\ (is_delete ev = true -> may_delete = true))
            evs.

(** The names [upload_file] gives to the objects it stores. *)
Definition basenames (filepaths : list string) : gset string :=
  list_to_set (os_path_basename <$> filepaths).

(** The files [open(filepath, 'rb')] succeeds on. *)
Definition readable (fs : FileSystem) (filepath : string) : Prop :=
  is_Some (read_file fs filepath).

#[global] Instance readable_dec fs filepath : Decision (readable fs filepath).
Proof. unfold readable. apply _. Defined.

(** ** Instances for the edge cases *)

Module Edge.
(** A directory whose only entry cannot be read. *)
Definition broken_fs : FileSystem := {|
  listdir := fun d => if String.eqb d "dist" then Some ["gone.whl"] else None;
  isdir := fun _ => false;
  read_file := fun _ => None;
|}.

(** The directory of [Example.fs], listed in another order. *)
Definition shuffled_fs : FileSystem := {|
  listdir := fun d =>
    if String.eqb d "dist"
    then Some ["sub"; "pkg-1.0.dev1.whl"; "pkg-1.0.dev2.whl"; ".hidden"]
    else None;
  isdir := isdir Example.fs;
  read_file := read_file Example.fs;
|}.

(** A codec that also knows a document that is a list. *)
Definition lib : PyLib := {|
  sha256_hexdigest := Example.digest;
  json_dumps := json_dumps Example.lib;
  json_load := fun x =>
    if bool_decide (x = Example.b "[]") then Some (JList [])
    else json_load Example.lib x;
  py_str := py_str Example.lib;
|}.

(** A container whose manifest is the object [content]. *)
Definition with_manifest (content : bytes) : Env :=
  mkEnv (<["wheels" := <[metadata_filename := content]> ∅]> ∅) [] [].

(** Pruning is switched off. *)
Definition keeping : Uploader := {|
  username := "user";
  secret := "secret";
  provider_name := "S3";
  region := "eu";
  update_index := true;
  max_workers := 4;
  delete_previous_dev_packages := false;
|}.

(** A second container next to the one published to. *)
Definition two_containers : Env :=
  mkEnv (<["wheels" := <["pkg-1.0.dev1.whl" := Example.b "old"]> ∅]>
           (<["other" := <["kept.whl" := Example.b "kept"]> ∅]> ∅)) [] [].

(** A driver without the static-website extension. *)
Definition cdn : CdnDriver := {|
  has_ex_enable_static_website := false;
  ex_enable_static_website := fun _ _ => mret tt;
  enable_container_cdn := fun _ => mret true;
  driver_get_container_cdn_url := fun c => mret ("https://cdn/" ++ c);
|}.
End Edge.

(** * Properties *)

(** ** Strings and paths *)

Lemma str_le_iff s t : str_le s t <-> s = t \/ String_as_OT.lt s t.
Proof.
  unfold str_le, String.leb.
  rewrite <- String_as_OT.cmp_eq, <- String_as_OT.cmp_lt.
  unfold String_as_OT.cmp.
  destruct (String.compare s t); intuition congruence.
Qed.

Lemma str_le_total : Total str_le.
Proof. intros s t. apply String.leb_total. Qed.

Lemma str_le_trans : Transitive str_le.
Proof.
  intros s t u Hst Htu.
  apply str_le_iff in Hst, Htu. apply str_le_iff.
  destruct Hst as [-> | Hst]; [exact Htu |].
  destruct Htu as [<- | Htu]; [by right |].
  right. by eapply String_as_OT.lt_trans.
Qed.

Lemma sorted_StronglySorted l : StronglySorted str_le (sorted l).
Proof.
  unfold sorted.
  apply (@StronglySorted_merge_sort _ str_le _ str_le_trans str_le_total).
Qed.

Lemma sorted_elem_of l n : n ∈ sorted l <-> n ∈ l.
Proof. unfold sorted. by rewrite merge_sort_Permutation. Qed.

Lemma StronglySorted_List_filter {A} (R : relation A) (f : A -> bool) l :
  StronglySorted R l -> StronglySorted R (List.filter f l).
Proof.
  induction 1 as [| x l Hl IH Hx]; simpl; [constructor |].
  destruct (f x); [| exact IH].
  constructor; [exact IH |].
  apply Forall_forall. intros y Hy.
  apply list_elem_of_In, filter_In in Hy as [Hy _].
  rewrite Forall_forall in Hx. by apply Hx, list_elem_of_In.
Qed.

Lemma append_String c s t : String c s ++ t = String c (s ++ t).
Proof. reflexivity. Qed.

Lemma append_Empty t : EmptyString ++ t = t.
Proof. reflexivity. Qed.

Lemma append_assoc s t u : (s ++ t) ++ u = s ++ (t ++ u).
Proof.
  induction s as [| c s IH]; [reflexivity |].
  rewrite !append_String. by rewrite IH.
Qed.

Lemma substring_0_length s : substring 0 (String.length s) s = s.
Proof. induction s as [| c s IH]; simpl; [reflexivity | by rewrite IH]. Qed.

Lemma substring_app_r p suf :
  substring (String.length p) (String.length suf) (p ++ suf) = suf.
Proof.
  induction p as [| c p IH]; simpl; [apply substring_0_length | exact IH].
Qed.

Lemma substring_split n s :
  (n <= String.length s)%nat ->
  s = substring 0 n s ++ substring n (String.length s - n) s.
Proof.
  revert n. induction s as [| c s IH]; intros [| n] Hn; simpl in *;
    try reflexivity; try lia.
  - by rewrite substring_0_length.
  - rewrite append_String. f_equal. apply IH. lia.
Qed.

Lemma string_length_app s t :
  String.length (s ++ t) = (String.length s + String.length t)%nat.
Proof.
  induction s as [| c s IH]; [reflexivity |].
  rewrite append_String. simpl. by rewrite IH.
Qed.

(** [endswith] is the suffix test. *)
Lemma endswith_spec s suf :
  endswith s suf = true <-> exists p, s = p ++ suf.
Proof.
  unfold endswith. rewrite andb_true_iff, Nat.leb_le, String.eqb_eq. split.
  - intros [Hlen Hsub].
    exists (substring 0 (String.length s - String.length suf) s).
    pose proof (substring_split (String.length s - String.length suf) s
                  ltac:(lia)) as Hsplit.
    replace (String.length s - (String.length s - String.length suf))%nat
      with (String.length suf) in Hsplit by lia.
    by rewrite Hsub in Hsplit.
  - intros [p ->]. rewrite string_length_app. split; [lia |].
    replace (String.length p + String.length suf - String.length suf)%nat
      with (String.length p) by lia.
    apply substring_app_r.
Qed.

Lemma has_sep_app s t : has_sep (s ++ t) = has_sep s || has_sep t.
Proof.
  induction s as [| c s IH]; [reflexivity |].
  rewrite append_String. simpl. rewrite IH. by rewrite orb_assoc.
Qed.

Lemma basename_no_sep n : has_sep n = false -> os_path_basename n = n.
Proof.
  destruct n as [| c n]; simpl; [reflexivity |].
  intros H. apply orb_false_iff in H as [Hc Hn]. by rewrite Hn, Hc.
Qed.

Lemma basename_app_sep p n :
  has_sep n = false -> os_path_basename (p ++ String sep n) = n.
Proof.
  intros Hn. induction p as [| c p IH].
  - rewrite append_Empty. simpl. by rewrite Hn.
  - rewrite append_String. simpl.
    rewrite has_sep_app. simpl. by rewrite orb_true_r.
Qed.

(** The object name [upload_file] derives from a scanned path is the
    directory entry's name. *)
Lemma basename_join local_folder n :
  has_sep n = false ->
  os_path_basename (os_path_join local_folder n) = n.
Proof.
  intros Hn. unfold os_path_join.
  assert (startswith n "/" = false) as ->.
  { destruct n as [| c n]; [reflexivity |]. simpl in Hn.
    apply orb_false_iff in Hn as [Hc _]. apply Ascii.eqb_neq in Hc.
    unfold startswith. cbn [String.prefix].
    destruct (ascii_dec "/" c) as [E | E]; [| reflexivity].
    exfalso. apply Hc. by rewrite <- E. }
  destruct (String.eqb local_folder EmptyString) eqn:He; simpl.
  { apply String.eqb_eq in He as ->. by apply basename_no_sep. }
  destruct (endswith local_folder "/") eqn:Hs.
  - apply endswith_spec in Hs as [p ->].
    rewrite append_assoc, append_String, append_Empty.
    by apply basename_app_sep.
  - by apply basename_app_sep.
Qed.

(** ** The local scanner *)

Section Scanner.
Context (lib : PyLib) (fs : FileSystem) (local_folder : string).

Lemma scan_loop_spec names filepaths local_metadata :
  (forall n, n ∈ List.filter (kept_entry fs local_folder) names ->
     is_Some (read_file fs (os_path_join local_folder n))) ->
  exists md,
    scan_loop lib fs local_folder names filepaths local_metadata
    = Ok ((filepaths ++ map (os_path_join local_folder)
                          (List.filter (kept_entry fs local_folder) names))%list, md)
    /\ (forall n content, n ∈ List.filter (kept_entry fs local_folder) names ->
          read_file fs (os_path_join local_folder n) = Some content ->
          md !! n = Some (file_metadata lib content))
    /\ (forall n, n ∉ List.filter (kept_entry fs local_folder) names ->
          md !! n = local_metadata !! n).
Proof.
  revert filepaths local_metadata.
  induction names as [| filename rest IH]; intros filepaths local_metadata Hread.
  - exists local_metadata. simpl. rewrite app_nil_r.
    split; [reflexivity |]. split; [| done].
    intros n content Hn. by apply elem_of_nil in Hn.
  - assert ((kept_entry fs local_folder) filename
            = negb (startswith filename ".")
              && negb (isdir fs (os_path_join local_folder filename)))
      as Hk by reflexivity.
    simpl in *.
    destruct (startswith filename ".") eqn:Hdot.
    { simpl in Hk. rewrite Hk in *. apply IH, Hread. }
    destruct (isdir fs (os_path_join local_folder filename)) eqn:Hdir.
    { simpl in Hk. rewrite Hk in *. apply IH, Hread. }
    simpl in Hk. rewrite Hk in *.
    destruct (Hread filename ltac:(left)) as [content Hcontent].
    rewrite Hcontent.
    destruct (IH (filepaths ++ [os_path_join local_folder filename])%list
                (<[filename := file_metadata lib content]> local_metadata))
      as (md & Hrun & Hin & Hout).
    { intros n Hn. apply Hread. by right. }
    exists md. split; [| split].
    + rewrite Hrun. by rewrite <- app_assoc.
    + intros n c Hn Hc.
      destruct (decide (n ∈ List.filter (kept_entry fs local_folder) rest)) as [Hrest | Hrest].
      * by apply Hin.
      * apply elem_of_cons in Hn as [-> | Hn]; [| done].
        rewrite Hout by done. rewrite lookup_insert_eq. congruence.
    + intros n Hn. apply not_elem_of_cons in Hn as [Hne Hn].
      rewrite Hout by done. by rewrite lookup_insert_ne.
Qed.
End Scanner.

(** C7. For a directory that can be listed and whose kept files can be
    read, [_scan_local_files] returns the paths of the kept names in
    lexicographically sorted order; a name is kept exactly when it is an
    entry of the directory that does not start with a dot and is not a
    directory; each kept name (the basename of its path) is mapped to the
    hex digest of the file's content and to the content's length; no other
    name is mapped. *)
Theorem scan_local_files_sorted_digest
    (lib : PyLib) (fs : FileSystem) (local_folder : string)
    (names : list string) :
  listdir fs local_folder = Some names ->
  (forall n, n ∈ scanned_names fs local_folder names ->
     is_Some (read_file fs (os_path_join local_folder n))) ->
  exists local_metadata,
    _scan_local_files lib fs local_folder
    = Ok (map (os_path_join local_folder)
            (scanned_names fs local_folder names), local_metadata)
    /\ StronglySorted str_le (scanned_names fs local_folder names)
    /\ (forall n, n ∈ scanned_names fs local_folder names <->
          n ∈ names /\ startswith n "." = false
          /\ isdir fs (os_path_join local_folder n) = false)
    /\ (forall n content,
          n ∈ scanned_names fs local_folder names ->
          read_file fs (os_path_join local_folder n) = Some content ->
          local_metadata !! n
          = Some (JDict (<["sha256" := JStr (sha256_hexdigest lib content)]>
                         (<["size" := JInt (Z.of_nat (length content))]> ∅)))
          /\ (has_sep n = false ->
              os_path_basename (os_path_join local_folder n) = n))
    /\ (forall n, n ∉ scanned_names fs local_folder names ->
          local_metadata !! n = None).
Proof.
  intros Hlist Hread.
  destruct (scan_loop_spec lib fs local_folder (sorted names) [] ∅ Hread)
    as (md & Hrun & Hin & Hout).
  exists md. unfold _scan_local_files. rewrite Hlist.
  split; [exact Hrun |]. split; [| split; [| split]].
  - apply StronglySorted_List_filter, sorted_StronglySorted.
  - intros n. unfold scanned_names.
    rewrite list_elem_of_In, filter_In, <- list_elem_of_In, sorted_elem_of.
    unfold kept_entry. rewrite andb_true_iff, !negb_true_iff. tauto.
  - intros n content Hn Hc. split; [by apply Hin |].
    apply basename_join.
  - intros n Hn. rewrite Hout by exact Hn. apply lookup_empty.
Qed.

(** ** The retry wrapper *)

Section RetryFacts.
Variable attempt : Action unit.

(** The wrapper as the source writes it, with the integer counter. *)
Lemma upload_with_unfold (retry_on_error : Z) (w : Env) :
  upload_with attempt retry_on_error w =
  match attempt w with
  | (Ok v, w') => (Ok v, w', [Attempt])
  | (Raise e, w') =>
      if is_InvalidCredsError e then (Raise e, w', [Attempt])
      else if retry_on_error <=? 0 then (Raise e, w', [Attempt])
      else
        let '(r, w'', t) := upload_with attempt (retry_on_error - 1) w' in
        (r, w'', Attempt :: Sleep 1 :: t)
  end.
Proof.
  unfold upload_with.
  destruct (Z.leb_spec retry_on_error 0) as [Hle | Hgt].
  - replace (Z.to_nat retry_on_error) with O by lia. simpl.
    destruct (attempt w) as [[v | e] w']; [reflexivity |].
    by destruct (is_InvalidCredsError e).
  - replace (Z.to_nat retry_on_error)
      with (S (Z.to_nat (retry_on_error - 1))) by lia.
    simpl. destruct (attempt w) as [[v | e] w']; reflexivity.
Qed.

Lemma is_InvalidCredsError_false e :
  e <> InvalidCredsError -> is_InvalidCredsError e = false.
Proof. by destruct e. Qed.

Lemma transient_failures_app w es1 w1 es2 w2 :
  transient_failures attempt w es1 w1 ->
  transient_failures attempt w1 es2 w2 ->
  transient_failures attempt w (es1 ++ es2) w2.
Proof.
  induction 1 as [| w e wa es w' Hrun Hne Hrest IH]; intros H2;
    [exact H2 |].
  simpl. econstructor; eauto.
Qed.

Lemma transient_failures_take w es w' n :
  transient_failures attempt w es w' ->
  exists w1, transient_failures attempt w (take n es) w1.
Proof.
  intros H. revert n.
  induction H as [| w e wa es w' Hrun Hne Hrest IH]; intros n.
  - exists w. rewrite take_nil. constructor.
  - destruct n as [| n]; [exists w; constructor |].
    destruct (IH n) as [w1 H1]. exists w1. simpl. econstructor; eauto.
Qed.

(** Failures that fit in the retry budget are absorbed: what the wrapper
    returns is what the next attempt returns. *)
Lemma upload_loop_absorbs n w es w1 :
  transient_failures attempt w es w1 ->
  (length es <= n)%nat ->
  upload_loop attempt n w =
  (let '(r, w2, t) := upload_loop attempt (n - length es) w1 in
   (r, w2, (concat (replicate (length es) [Attempt; Sleep 1]) ++ t)%list)).
Proof.
  intros H. revert n.
  induction H as [| w e wa es w' Hrun Hne Hrest IH]; intros n Hlen.
  - simpl. rewrite Nat.sub_0_r.
    by destruct (upload_loop attempt n w) as [[r w2] t].
  - simpl in Hlen. destruct n as [| n]; [lia |].
    simpl. rewrite Hrun, (is_InvalidCredsError_false e Hne).
    rewrite (IH n) by lia.
    by destruct (upload_loop attempt (n - length es) w') as [[r w2] t].
Qed.

Lemma retry_trace_concat k :
  retry_trace k
  = (concat (replicate k [Attempt; Sleep 1]) ++ [Attempt])%list.
Proof. induction k as [| k IH]; simpl; [reflexivity | by rewrite IH]. Qed.

Lemma count_attempts_retry_trace k : count_attempts (retry_trace k) = S k.
Proof.
  induction k as [| k IH]; [reflexivity |].
  unfold count_attempts in *. simpl. by rewrite IH.
Qed.

Lemma count_sleeps_retry_trace k : count_sleeps (retry_trace k) = k.
Proof.
  induction k as [| k IH]; [reflexivity |].
  unfold count_sleeps in *. simpl. by rewrite IH.
Qed.



Lemma upload_loop_exhausted n w es e w1 w2 :
  transient_failures attempt w es w1 ->
  attempt w1 = (Raise e, w2) ->
  length es = n ->
  upload_loop attempt n w = (Raise e, w2, retry_trace n).
Proof.
  intros H Hfail Hlen.
  rewrite (upload_loop_absorbs n w es w1 H) by lia.
  rewrite retry_trace_concat, Hlen, Nat.sub_diag. simpl. rewrite Hfail.
  by destruct (is_InvalidCredsError e).
Qed.
End RetryFacts.




(** An adapter that rejects the credentials at its first call makes the
    attempt raise [InvalidCredsError] without touching the store. *)
Lemma try_upload_once_rejected lib fs matching_dev_filenames self
    local_folder container_name w schedule :
  faults w = Some InvalidCredsError :: schedule ->
  _try_upload_once lib fs matching_dev_filenames self
    local_folder container_name w
  = (Raise InvalidCredsError, set_faults schedule w).
Proof.
  intros H.
  unfold _try_upload_once, make_driver, mbind, Action_bind, driver_call.
  by rewrite H.
Qed.


(** ** The driver: what a call can do to the store *)

Lemma bind_eq {A B} (m : Action A) (f : A -> Action B) (w : Env) :
  (m ≫= f) w =
  match m w with
  | (Ok a, w') => f a w'
  | (Raise e, w') => (Raise e, w')
  end.
Proof. reflexivity. Qed.

Lemma ret_eq {A} (a : A) (w : Env) : (mret a : Action A) w = (Ok a, w).
Proof. reflexivity. Qed.

Lemma driver_call_quiet {A} (op : Action A) (w : Env) :
  quiet w -> driver_call op w = op w.
Proof. unfold quiet, driver_call. by intros ->. Qed.

(** Either the schedule makes the call fail and nothing else changes, or
    the operation runs on the same store. *)
Lemma driver_call_cases {A} (op : Action A) (w : Env) r w' :
  driver_call op w = (r, w') ->
  (exists e, r = Raise e /\ containers w' = containers w
             /\ history w' = history w)
  \/ (exists w0, op w0 = (r, w') /\ containers w0 = containers w
                 /\ history w0 = history w).
Proof.
  unfold driver_call. destruct (faults w) as [| [e |] fs]; intros H.
  - right. by exists w.
  - left. exists e. by simplify_eq.
  - right. by exists (set_faults fs w).
Qed.

Lemma same_store_refl w : same_store w w.
Proof. by split. Qed.

Lemma same_store_trans w1 w2 w3 :
  same_store w1 w2 -> same_store w2 w3 -> same_store w1 w3.
Proof. intros [? ?] [? ?]. split; congruence. Qed.

Lemma same_store_objects w w' c : same_store w w' -> objects w' c = objects w c.
Proof. intros [H _]. unfold objects. by rewrite H. Qed.

Ltac driver_inv H :=
  apply driver_call_cases in H as [(? & ? & ? & ?) | (? & H & ? & ?)];
  [simplify_eq |].

Lemma make_driver_same w r w' : make_driver w = (r, w') -> same_store w w'.
Proof.
  unfold make_driver. intros H. driver_inv H; [by split |].
  unfold mret, Action_ret in H. simplify_eq. by split.
Qed.

Lemma get_container_same name w r w' :
  get_container name w = (r, w') -> same_store w w'.
Proof.
  unfold get_container. intros H. driver_inv H; [by split |].
  case_match; simplify_eq; by split.
Qed.

Lemma get_container_Ok name w c w' :
  get_container name w = (Ok c, w') -> c = name /\ is_Some (containers w !! name).
Proof.
  unfold get_container. intros H. driver_inv H.
  case_match eqn:E; simplify_eq. split; [done |]. rewrite <- H0. eauto.
Qed.

Lemma get_object_same container name w r w' :
  get_object container name w = (r, w') -> same_store w w'.
Proof.
  unfold get_object. intros H. driver_inv H; [by split |].
  repeat case_match; simplify_eq; by split.
Qed.

Lemma get_object_Ok container name w obj w' :
  get_object container name w = (Ok obj, w') ->
  obj = mkObject container name
  /\ is_Some (containers w !! container)
  /\ is_Some (objects w container !! name).
Proof.
  unfold get_object, objects. intros H. driver_inv H.
  rewrite <- H0. repeat case_match; simplify_eq. simpl. eauto.
Qed.

Lemma as_stream_same obj w r w' : as_stream obj w = (r, w') -> same_store w w'.
Proof.
  unfold as_stream. intros H. driver_inv H; [by split |].
  case_match; simplify_eq; by split.
Qed.

Lemma as_stream_Ok obj w content w' :
  as_stream obj w = (Ok content, w') ->
  objects w (object_container obj) !! object_name obj = Some content.
Proof.
  unfold as_stream, objects. intros H. driver_inv H.
  rewrite <- H0. case_match; by simplify_eq.
Qed.

Lemma list_container_objects_same container w r w' :
  list_container_objects container w = (r, w') -> same_store w w'.
Proof.
  unfold list_container_objects. intros H. driver_inv H; [by split |].
  case_match; simplify_eq; by split.
Qed.

Lemma list_container_objects_Ok container w names w' :
  list_container_objects container w = (Ok names, w') ->
  exists objs, containers w !! container = Some objs
               /\ names = (map_to_list objs).*1.
Proof.
  unfold list_container_objects. intros H. driver_inv H.
  rewrite <- H0. case_match; simplify_eq. eauto.
Qed.

(** A call that creates a container leaves every object as it was. *)
Lemma create_container_effect name w r w' :
  create_container name w = (r, w') ->
  (exists e, r = Raise e /\ same_store w w')
  \/ (r = Ok name /\ containers w !! name = None
      /\ containers w' = <[name := ∅]> (containers w)
      /\ history w' = (history w ++ [EvCreateContainer name])%list).
Proof.
  unfold create_container. intros H.
  driver_inv H; [left; eexists; by repeat split |].
  case_match eqn:E; simplify_eq; [left; eexists; by repeat split |].
  right. simpl. rewrite <- H0, <- H1. by rewrite E.
Qed.

Lemma upload_object_via_stream_effect content container name w r w' :
  upload_object_via_stream content container name w = (r, w') ->
  (exists e, r = Raise e /\ same_store w w')
  \/ (r = Ok tt
      /\ exists objs, containers w !! container = Some objs
      /\ containers w'
         = <[container := <[name := content]> objs]> (containers w)
      /\ history w' = (history w ++ [EvPut container name content])%list).
Proof.
  unfold upload_object_via_stream. intros H.
  driver_inv H; [left; eexists; by repeat split |].
  case_match eqn:E; simplify_eq.
  - right. split; [done |]. eexists. simpl. rewrite <- H0, <- H1. by rewrite E.
  - left. eexists. by repeat split.
Qed.

Lemma delete_object_effect obj w r w' :
  delete_object obj w = (r, w') ->
  (exists e, r = Raise e /\ same_store w w')
  \/ (r = Ok tt
      /\ exists objs, containers w !! object_container obj = Some objs
      /\ is_Some (objs !! object_name obj)
      /\ containers w'
         = <[object_container obj := delete (object_name obj) objs]>
             (containers w)
      /\ history w'
         = (history w
            ++ [EvDelete (object_container obj) (object_name obj)])%list).
Proof.
  unfold delete_object. intros H.
  driver_inv H; [left; eexists; by repeat split |].
  case_match eqn:E; simplify_eq; [| left; eexists; by repeat split].
  case_match eqn:E'; simplify_eq; [| left; eexists; by repeat split].
  right. split; [done |]. eexists. simpl. rewrite <- H0, <- H1.
  rewrite E. eauto.
Qed.

(** ** The steps of an attempt *)

Section Steps.
Context (lib : PyLib) (fs : FileSystem).
Variable matching_dev_filenames : string -> list string -> list string.
Variable self : Uploader.

Lemma ensure_container_effect container_name w r w' :
  ensure_container container_name w = (r, w') ->
  (forall c, objects w' c = objects w c)
  /\ (history w' = history w
      \/ history w'
         = (history w ++ [EvCreateContainer container_name])%list)
  /\ (forall c, r = Ok c ->
        c = container_name /\ is_Some (containers w' !! container_name)).
Proof.
  unfold ensure_container, try_except.
  destruct (get_container container_name w) as [[c | e] w1] eqn:Hget.
  - intros H. simplify_eq.
    pose proof (get_container_same _ _ _ _ Hget) as Hsame.
    apply get_container_Ok in Hget as [-> Hsome].
    split; [intros c; by apply same_store_objects |].
    split; [left; apply Hsame |].
    intros c Hc. simplify_eq. split; [done |].
    destruct Hsame as [-> _]. exact Hsome.
  - apply get_container_same in Hget as Hsame.
    destruct (is_ContainerDoesNotExistError e).
    + intros H. apply create_container_effect in H as [Hc | Hc].
      * destruct Hc as (e' & -> & Hc).
        pose proof (same_store_trans _ _ _ Hsame Hc) as Hs.
        split; [intros c; by apply same_store_objects |].
        split; [left; apply Hs |].
        intros c Hr. discriminate.
      * destruct Hc as (-> & Hnone & Hcs & Hh).
        destruct Hsame as [Hs1 Hs2].
        split; [| split].
        -- intros c. unfold objects. rewrite Hcs, Hs1 in *.
           destruct (decide (c = container_name)) as [-> | Hne].
           ++ by rewrite lookup_insert_eq, Hnone.
           ++ by rewrite lookup_insert_ne.
        -- right. by rewrite Hh, Hs2.
        -- intros c Hc. simplify_eq. split; [done |].
           rewrite Hcs, lookup_insert_eq. eauto.
    + intros H. simplify_eq.
      split; [intros c; by apply same_store_objects |].
      split; [left; apply Hsame |]. intros c Hc. discriminate.
Qed.
Lemma load_metadata_same container w r w' :
  load_metadata lib container w = (r, w') -> same_store w w'.
Proof.
  unfold load_metadata, try_except. rewrite bind_eq.
  destruct (get_object container metadata_filename w)
    as [[obj | e] w1] eqn:Hget;
    apply get_object_same in Hget as Hs1.
  - rewrite bind_eq.
    destruct (as_stream obj w1) as [[content | e] w2] eqn:Hread;
      apply as_stream_same in Hread as Hs2;
      pose proof (same_store_trans _ _ _ Hs1 Hs2) as Hs.
    + unfold lift. destruct (json_load lib content); simpl;
        rewrite ?ret_eq; intros H; by simplify_eq.
    + destruct (is_ObjectDoesNotExistError e); rewrite ?ret_eq;
        intros H; by simplify_eq.
  - destruct (is_ObjectDoesNotExistError e); rewrite ?ret_eq;
      intros H; by simplify_eq.
Qed.

Lemma try_upload_once_steps local_folder container_name w w0 c w1 :
  make_driver w = (Ok tt, w0) ->
  ensure_container container_name w0 = (Ok c, w1) ->
  _try_upload_once lib fs matching_dev_filenames self
    local_folder container_name w
  = match load_metadata lib c w1 with
    | (Ok metadata, w2) =>
        publish_with lib fs matching_dev_filenames self
          local_folder container_name c metadata w2
    | (Raise e, w2) => (Raise e, w2)
    end.
Proof.
  intros Hd Hc. unfold _try_upload_once.
  rewrite bind_eq, Hd, bind_eq, Hc, bind_eq. reflexivity.
Qed.

(** C8.  After the driver is made and the container found or created:
    when fetching the metadata object raises [ObjectDoesNotExistError]
    the attempt goes on with the empty manifest, and a container without
    a metadata object makes the fetch raise exactly that; when the object
    is fetched and read, and its content parses, the attempt goes on with
    the parsed content. *)
Theorem load_metadata_absent_or_parsed
    local_folder container_name w w0 c w1 :
  make_driver w = (Ok tt, w0) ->
  ensure_container container_name w0 = (Ok c, w1) ->
  (forall w2,
     get_object c metadata_filename w1
     = (Raise ObjectDoesNotExistError, w2) ->
     load_metadata lib c w1 = (Ok (JDict ∅), w2)
     /\ _try_upload_once lib fs matching_dev_filenames self
          local_folder container_name w
        = publish_with lib fs matching_dev_filenames self
            local_folder container_name c (JDict ∅) w2)
  /\ (forall objs,
        quiet w1 -> containers w1 !! c = Some objs ->
        objs !! metadata_filename = None ->
        get_object c metadata_filename w1
        = (Raise ObjectDoesNotExistError, w1))
  /\ (forall obj wa content w2 metadata,
        get_object c metadata_filename w1 = (Ok obj, wa) ->
        as_stream obj wa = (Ok content, w2) ->
        json_load lib content = Some metadata ->
        objects w1 c !! metadata_filename = Some content
        /\ load_metadata lib c w1 = (Ok metadata, w2)
        /\ _try_upload_once lib fs matching_dev_filenames self
             local_folder container_name w
           = publish_with lib fs matching_dev_filenames self
               local_folder container_name c metadata w2).
Proof.
  intros Hd Hc. split; [| split].
  - intros w2 Hget.
    assert (load_metadata lib c w1 = (Ok (JDict ∅), w2)) as Hload.
    { unfold load_metadata, try_except. by rewrite bind_eq, Hget. }
    split; [exact Hload |].
    by rewrite (try_upload_once_steps _ _ _ _ _ _ Hd Hc), Hload.
  - intros objs Hq Hobjs Hnone. unfold get_object.
    rewrite driver_call_quiet by exact Hq. by rewrite Hobjs, Hnone.
  - intros obj wa content w2 metadata Hget Hread Hparse.
    assert (load_metadata lib c w1 = (Ok metadata, w2)) as Hload.
    { unfold load_metadata, try_except.
      rewrite bind_eq, Hget, bind_eq, Hread. unfold lift.
      by rewrite Hparse. }
    split; [| split; [exact Hload |]].
    + apply get_object_same in Hget as Hs.
      apply get_object_Ok in Hget as (-> & _ & _).
      apply as_stream_Ok in Hread. simpl in Hread.
      by rewrite <- (same_store_objects _ _ c Hs).
    + by rewrite (try_upload_once_steps _ _ _ _ _ _ Hd Hc), Hload.
Qed.

(** C10.  When loading the manifest raises, or when the manifest is
    loaded and scanning the local folder raises, the attempt raises that
    error, every container holds the objects it held before the attempt,
    and the only mutation the store may have seen is the creation of the
    container. *)
Theorem failed_load_or_scan_mutates_nothing
    local_folder container_name w w0 c w1 w2 e :
  make_driver w = (Ok tt, w0) ->
  ensure_container container_name w0 = (Ok c, w1) ->
  (load_metadata lib c w1 = (Raise e, w2)
   \/ (exists metadata,
         load_metadata lib c w1 = (Ok metadata, w2)
         /\ _scan_local_files lib fs local_folder = Raise e)) ->
  _try_upload_once lib fs matching_dev_filenames self
    local_folder container_name w = (Raise e, w2)
  /\ (forall c', objects w2 c' = objects w c')
  /\ (history w2 = history w
      \/ history w2
         = (history w ++ [EvCreateContainer container_name])%list).
Proof.
  intros Hd Hc Hfail.
  rewrite (try_upload_once_steps _ _ _ _ _ _ Hd Hc).
  apply make_driver_same in Hd as Hs0.
  apply ensure_container_effect in Hc as (Hobjs & Hhist & _).
  assert (same_store w1 w2) as Hs2.
  { destruct Hfail as [Hl | (m & Hl & _)];
      by apply load_metadata_same in Hl. }
  split; [| split].
  - destruct Hfail as [-> | (m & -> & Hscan)]; [reflexivity |].
    unfold publish_with. rewrite bind_eq. unfold lift. by rewrite Hscan.
  - intros c'. rewrite (same_store_objects _ _ c' Hs2), Hobjs.
    by apply same_store_objects.
  - destruct Hs2 as [_ ->]. destruct Hs0 as [_ <-]. exact Hhist.
Qed.

End Steps.

(** ** Upload tasks and pruning *)

Section Tasks.
Context (lib : PyLib) (fs : FileSystem).
Variable matching_dev_filenames : string -> list string -> list string.
Variable self : Uploader.

Lemma delete_one_eq container filename w :
  delete_one container filename w =
  match (get_object container filename ≫= delete_object) w with
  | (Ok _, w') => (Ok tt, w')
  | (Raise e, w') =>
      if is_ObjectDoesNotExistError e then (Ok tt, w') else (Raise e, w')
  end.
Proof.
  unfold delete_one, try_except.
  destruct ((get_object container filename ≫= delete_object) w)
    as [[[] | e] w']; reflexivity.
Qed.

Lemma delete_previous_app container pre rest w :
  delete_previous container (pre ++ rest) w =
  match delete_previous container pre w with
  | (Ok _, w') => delete_previous container rest w'
  | (Raise e, w') => (Raise e, w')
  end.
Proof.
  revert w. induction pre as [| f pre IH]; intros w; [reflexivity |].
  simpl. rewrite !bind_eq.
  destruct (delete_one container f w) as [[[] | e] w1]; [apply IH | reflexivity].
Qed.

Lemma upload_file_steps filepath container_name w w1 c w2 existing w3
    content w4 :
  delete_previous_dev_packages self = true ->
  make_driver w = (Ok tt, w1) ->
  get_container container_name w1 = (Ok c, w2) ->
  _get_package_filenames c w2 = (Ok existing, w3) ->
  read_file fs filepath = Some content ->
  upload_object_via_stream content c (os_path_basename filepath) w3
  = (Ok tt, w4) ->
  upload_file fs matching_dev_filenames self filepath container_name w
  = delete_previous c
      (matching_dev_filenames (os_path_basename filepath) existing) w4.
Proof.
  intros Hflag Hd Hc Hl Hr Hu. unfold upload_file.
  rewrite bind_eq, Hd, bind_eq, Hc, Hflag, bind_eq, bind_eq, Hl, ret_eq.
  rewrite bind_eq. unfold lift. rewrite Hr, bind_eq, Hu. simpl.
  case_bool_decide as Hnil; [by rewrite Hnil | reflexivity].
Qed.

(** C9.  In an upload task that prunes, once the file is uploaded and the
    candidates before [filename] are dealt with: if fetching and deleting
    [filename] raises [ObjectDoesNotExistError], that deletion counts as
    done and the task goes on with the remaining candidates; an object
    that is not in the container makes the fetch raise exactly that; any
    other error is the task's outcome. *)
Theorem prune_tolerates_missing_object
    filepath container_name w w1 c w2 existing w3 content w4
    (pre rest : list string) filename w5 :
  delete_previous_dev_packages self = true ->
  make_driver w = (Ok tt, w1) ->
  get_container container_name w1 = (Ok c, w2) ->
  _get_package_filenames c w2 = (Ok existing, w3) ->
  read_file fs filepath = Some content ->
  upload_object_via_stream content c (os_path_basename filepath) w3
  = (Ok tt, w4) ->
  matching_dev_filenames (os_path_basename filepath) existing
  = (pre ++ filename :: rest)%list ->
  delete_previous c pre w4 = (Ok tt, w5) ->
  (forall w6,
     (get_object c filename ≫= delete_object) w5
     = (Raise ObjectDoesNotExistError, w6) ->
     delete_one c filename w5 = (Ok tt, w6)
     /\ upload_file fs matching_dev_filenames self filepath container_name w
        = delete_previous c rest w6)
  /\ (forall objs,
        quiet w5 -> containers w5 !! c = Some objs ->
        objs !! filename = None ->
        (get_object c filename ≫= delete_object) w5
        = (Raise ObjectDoesNotExistError, w5))
  /\ (forall e w6,
        (get_object c filename ≫= delete_object) w5 = (Raise e, w6) ->
        e <> ObjectDoesNotExistError ->
        delete_one c filename w5 = (Raise e, w6)
        /\ upload_file fs matching_dev_filenames self filepath
             container_name w
           = (Raise e, w6)).
Proof.
  intros Hflag Hd Hc Hl Hr Hu Hm Hpre.
  pose proof (upload_file_steps _ _ _ _ _ _ _ _ _ _ Hflag Hd Hc Hl Hr Hu)
    as Hsteps.
  rewrite Hm, delete_previous_app, Hpre in Hsteps. simpl in Hsteps.
  rewrite bind_eq in Hsteps. split; [| split].
  - intros w6 Hdel.
    assert (delete_one c filename w5 = (Ok tt, w6)) as Hone
      by (by rewrite delete_one_eq, Hdel).
    split; [exact Hone |]. by rewrite Hsteps, Hone.
  - intros objs Hq Hobjs Hnone. rewrite bind_eq. unfold get_object.
    rewrite driver_call_quiet by exact Hq. by rewrite Hobjs, Hnone.
  - intros e w6 Hdel Hne.
    assert (delete_one c filename w5 = (Raise e, w6)) as Hone.
    { rewrite delete_one_eq, Hdel. by destruct e. }
    split; [exact Hone |]. by rewrite Hsteps, Hone.
Qed.

End Tasks.

(** ** Relations that every step of an action keeps *)

Section Preserves.
Variable P : Env -> Env -> Prop.
Hypothesis P_refl : forall w, P w w.
Hypothesis P_trans : forall w1 w2 w3, P w1 w2 -> P w2 w3 -> P w1 w3.

Lemma preserves_ret {A} (a : A) : preserves P (mret a).
Proof. intros w r w' H. rewrite ret_eq in H. by simplify_eq. Qed.

Lemma preserves_lift {A} (x : result A) : preserves P (lift x).
Proof. intros w r w' H. unfold lift in H. by simplify_eq. Qed.

Lemma preserves_bind {A B} (m : Action A) (f : A -> Action B) :
  preserves P m -> (forall a, preserves P (f a)) -> preserves P (m ≫= f).
Proof.
  intros Hm Hf w r w' H. rewrite bind_eq in H.
  destruct (m w) as [[a | e] w1] eqn:E.
  - eapply P_trans; [by eapply Hm | by eapply Hf].
  - simplify_eq. by eapply Hm.
Qed.

Lemma preserves_try_except {A} (m : Action A) handles (h : Action A) :
  preserves P m -> preserves P h -> preserves P (try_except m handles h).
Proof.
  intros Hm Hh w r w' H. unfold try_except in H.
  destruct (m w) as [[a | e] w1] eqn:E.
  - simplify_eq. by eapply Hm.
  - destruct (handles e).
    + eapply P_trans; [by eapply Hm | by eapply Hh].
    + simplify_eq. by eapply Hm.
Qed.

Lemma preserves_run_tasks (tasks : list (Action unit)) :
  Forall (preserves P) tasks ->
  forall w rs w', run_tasks tasks w = (rs, w') -> P w w'.
Proof.
  induction 1 as [| t tasks Ht Hts IH]; intros w rs w' H; simpl in H.
  - by simplify_eq.
  - destruct (t w) as [r w1] eqn:E.
    destruct (run_tasks tasks w1) as [rs' w2] eqn:E'. simplify_eq.
    eapply P_trans; [by eapply Ht | by eapply IH].
Qed.
End Preserves.

(** A relation kept by every driver call is kept by every method. *)
Section StepInvariant.
Variable P : Env -> Env -> Prop.
Hypothesis P_refl : forall w, P w w.
Hypothesis P_trans : forall w1 w2 w3, P w1 w2 -> P w2 w3 -> P w1 w3.
Hypothesis P_make_driver : preserves P make_driver.
Hypothesis P_get_container : forall n, preserves P (get_container n).
Hypothesis P_create_container : forall n, preserves P (create_container n).
Hypothesis P_get_object : forall c n, preserves P (get_object c n).
Hypothesis P_as_stream : forall o, preserves P (as_stream o).
Hypothesis P_upload :
  forall b c n, preserves P (upload_object_via_stream b c n).
Hypothesis P_list : forall c, preserves P (list_container_objects c).
Hypothesis P_delete : forall o, preserves P (delete_object o).

Context (lib : PyLib) (fs : FileSystem).
Variable matching_dev_filenames : string -> list string -> list string.
Variable self : Uploader.











End StepInvariant.




Section History.
Context (lib : PyLib) (fs : FileSystem).
Variable matching_dev_filenames : string -> list string -> list string.
Variable self : Uploader.



Lemma get_package_filenames_same c w r w' :
  _get_package_filenames c w = (r, w') -> same_store w w'.
Proof.
  unfold _get_package_filenames. rewrite bind_eq.
  destruct (list_container_objects c w) as [[names | e] w1] eqn:E;
    apply list_container_objects_same in E; rewrite ?ret_eq;
    intros H; by simplify_eq.
Qed.





End History.

(** ** What a successful attempt went through *)

Section Success.
Context (lib : PyLib) (fs : FileSystem).
Variable matching_dev_filenames : string -> list string -> list string.
Variable self : Uploader.

Lemma scan_loop_readable local_folder names filepaths local_metadata x :
  scan_loop lib fs local_folder names filepaths local_metadata = Ok x ->
  forall n,
    n ∈ List.filter (kept_entry fs local_folder) names ->
    is_Some (read_file fs (os_path_join local_folder n)).
Proof.
  revert filepaths local_metadata.
  induction names as [| filename rest IH]; intros filepaths local_metadata;
    simpl; intros Hrun n Hn; [by apply elem_of_nil in Hn |].
  unfold kept_entry at 1 in Hn.
  destruct (startswith filename "."); simpl in *; [by eapply IH |].
  destruct (isdir fs (os_path_join local_folder filename)); simpl in *;
    [by eapply IH |].
  destruct (read_file fs (os_path_join local_folder filename))
    as [content |] eqn:Hread; [| discriminate].
  apply elem_of_cons in Hn as [-> | Hn]; [by rewrite Hread |].
  by eapply IH.
Qed.

Lemma scan_local_files_inv local_folder filepaths local_metadata :
  _scan_local_files lib fs local_folder = Ok (filepaths, local_metadata) ->
  exists names,
    listdir fs local_folder = Some names
    /\ filepaths
       = map (os_path_join local_folder)
           (scanned_names fs local_folder names)
    /\ (forall n, n ∈ scanned_names fs local_folder names ->
          exists content,
            read_file fs (os_path_join local_folder n) = Some content
            /\ local_metadata !! n = Some (file_metadata lib content))
    /\ (forall n, n ∉ scanned_names fs local_folder names ->
          local_metadata !! n = None).
Proof.
  intros Hscan. pose proof Hscan as Hscan'.
  unfold _scan_local_files in Hscan.
  destruct (listdir fs local_folder) as [names |] eqn:Hlist;
    [| discriminate].
  exists names. split; [reflexivity |].
  pose proof (scan_loop_readable _ _ _ _ _ Hscan) as Hread.
  destruct (scan_loop_spec lib fs local_folder (sorted names) [] ∅ Hread)
    as (md & Hrun & Hin & Hout).
  rewrite Hscan in Hrun. simplify_eq.
  split; [reflexivity |]. split.
  - intros n Hn. destruct (Hread n Hn) as [content Hc].
    exists content. split; [exact Hc |]. by apply Hin.
  - intros n Hn. rewrite (Hout n Hn). apply lookup_empty.
Qed.

Lemma ensure_container_Ok container_name w c w' :
  ensure_container container_name w = (Ok c, w') ->
  c = container_name /\ is_Some (containers w' !! container_name).
Proof.
  intros H. apply ensure_container_effect in H as (_ & _ & H). by apply H.
Qed.

Lemma try_upload_once_Ok_inv local_folder container_name w w' :
  _try_upload_once lib fs matching_dev_filenames self
    local_folder container_name w = (Ok tt, w') ->
  exists w0 w1 remote w2 filepaths local_metadata w3 w4,
    make_driver w = (Ok tt, w0)
    /\ ensure_container container_name w0 = (Ok container_name, w1)
    /\ load_metadata lib container_name w1 = (Ok (JDict remote), w2)
    /\ _scan_local_files lib fs local_folder
       = Ok (filepaths, local_metadata)
    /\ _upload_files fs matching_dev_filenames self filepaths
         container_name w2 = (Ok tt, w3)
    /\ _upload_metadata_file lib container_name
         (dict_update remote local_metadata) w3 = (Ok tt, w4)
    /\ (if update_index self
        then _update_index lib container_name
               (dict_update remote local_metadata) w4
        else (Ok tt, w4)) = (Ok tt, w').
Proof.
  unfold _try_upload_once. rewrite bind_eq.
  destruct (make_driver w) as [[[] | e] w0] eqn:Hd; [| discriminate].
  rewrite bind_eq.
  destruct (ensure_container container_name w0) as [[c | e] w1] eqn:Hc;
    [| discriminate].
  apply ensure_container_Ok in Hc as Hc'. destruct Hc' as [-> _].
  rewrite bind_eq.
  destruct (load_metadata lib container_name w1) as [[m | e] w2] eqn:Hl;
    [| discriminate].
  unfold publish_with. rewrite bind_eq. unfold lift at 1.
  destruct (_scan_local_files lib fs local_folder)
    as [[filepaths local_metadata] | e] eqn:Hs; [| discriminate].
  rewrite bind_eq. unfold lift at 1.
  destruct m as [| | | | | remote]; simpl; try discriminate.
  rewrite bind_eq.
  destruct (_upload_files _ _ _ filepaths container_name w2)
    as [[[] | e] w3] eqn:Hu; [| discriminate].
  rewrite bind_eq.
  destruct (_upload_metadata_file lib container_name _ w3)
    as [[[] | e] w4] eqn:Hm; [| discriminate].
  intros H. exists w0, w1, remote, w2, filepaths, local_metadata, w3, w4.
  repeat (split; [reflexivity || assumption |]).
  destruct (update_index self); [exact H | by rewrite ret_eq in H].
Qed.

Lemma upload_metadata_file_Ok c metadata w w' :
  _upload_metadata_file lib c metadata w = (Ok tt, w') ->
  is_Some (containers w !! c)
  /\ objects w' c
     = <[metadata_filename := json_dumps lib (JDict metadata)]>
         (objects w c).
Proof.
  unfold _upload_metadata_file. intros H.
  apply upload_object_via_stream_effect in H
    as [(e & He & _) | (_ & objs & Hobjs & Hcs & _)]; [discriminate |].
  split; [by rewrite Hobjs |].
  unfold objects. by rewrite Hcs, lookup_insert_eq, Hobjs.
Qed.

Lemma update_index_Ok c metadata w w' :
  _update_index lib c metadata w = (Ok tt, w') ->
  exists listed payload,
    containers w !! c = Some listed
    /\ index_loop lib metadata (package_names listed)
         ("<html><body><p>" ++ newline) = Ok payload
    /\ objects w' c
       = <[index_filename :=
             list_byte_of_string
               (payload ++ "</p></body></html>" ++ newline)]> listed.
Proof.
  unfold _update_index, _get_package_filenames.
  rewrite !bind_eq.
  destruct (list_container_objects c w) as [[names | e] w1] eqn:Hl;
    [| discriminate].
  apply list_container_objects_same in Hl as Hs.
  apply list_container_objects_Ok in Hl as (listed & Hlisted & ->).
  rewrite ret_eq, bind_eq. unfold lift.
  fold (package_names listed).
  destruct (index_loop lib metadata (package_names listed) _)
    as [payload | e] eqn:Hloop; [| discriminate].
  intros H. apply upload_object_via_stream_effect in H
    as [(e & He & _) | (_ & objs & Hobjs & Hcs & _)]; [discriminate |].
  destruct Hs as [Hs _]. rewrite Hs, Hlisted in Hobjs. simplify_eq.
  exists objs, payload. split; [exact Hlisted |]. split; [exact Hloop |].
  unfold objects. by rewrite Hcs, lookup_insert_eq.
Qed.






Lemma package_names_NoDup objs : NoDup (package_names objs).
Proof.
  unfold package_names. apply NoDup_ListNoDup, List.NoDup_filter.
  apply NoDup_ListNoDup, NoDup_fst_map_to_list.
Qed.

Lemma elem_of_package_names objs n :
  n ∈ package_names objs <->
  n ∈ dom objs /\ endswith n ".json" = false /\ endswith n ".html" = false.
Proof.
  unfold package_names.
  rewrite list_elem_of_In, filter_In, <- list_elem_of_In.
  rewrite list_elem_of_fmap, elem_of_dom. unfold endswith_any, ignore_list.
  simpl. rewrite orb_false_r, negb_true_iff, orb_false_iff.
  split.
  - intros [([k v] & -> & Hkv) H]. apply elem_of_map_to_list in Hkv.
    simpl. eauto.
  - intros [[v Hv] H]. split; [| exact H].
    exists (n, v). split; [reflexivity |]. by apply elem_of_map_to_list.
Qed.


End Success.

(** ** Attempts on a store without scheduled failures *)

Section Quiet.
Context (lib : PyLib).

Lemma make_driver_quiet w : quiet w -> make_driver w = (Ok tt, w).
Proof. intros Hq. unfold make_driver. by rewrite driver_call_quiet. Qed.

Lemma get_container_quiet name w objs :
  quiet w -> containers w !! name = Some objs ->
  get_container name w = (Ok name, w).
Proof.
  intros Hq Hc. unfold get_container.
  rewrite driver_call_quiet by done. by rewrite Hc.
Qed.

Lemma ensure_container_quiet name w :
  quiet w ->
  exists w1 objs,
    ensure_container name w = (Ok name, w1)
    /\ quiet w1
    /\ containers w1 !! name = Some objs
    /\ objs = objects w name.
Proof.
  intros Hq. unfold ensure_container, try_except, objects.
  destruct (containers w !! name) as [objs |] eqn:Hc.
  - rewrite (get_container_quiet name w objs Hq Hc).
    exists w, objs. by repeat split.
  - unfold get_container, create_container.
    rewrite driver_call_quiet by done. rewrite Hc. simpl.
    rewrite driver_call_quiet by done. rewrite Hc.
    eexists _, ∅. split; [reflexivity |].
    split; [exact Hq |]. simpl. by rewrite lookup_insert_eq.
Qed.

Lemma load_metadata_quiet container w objs :
  quiet w -> containers w !! container = Some objs ->
  load_metadata lib container w
  = (match objs !! metadata_filename with
     | None => Ok (JDict ∅)
     | Some content =>
         match json_load lib content with
         | Some metadata => Ok metadata
         | None => Raise ValueError
         end
     end, w).
Proof.
  intros Hq Hc. unfold load_metadata, try_except, get_object, as_stream.
  rewrite bind_eq, driver_call_quiet by done. rewrite Hc.
  destruct (objs !! metadata_filename) as [content |] eqn:Hm;
    [| reflexivity].
  rewrite bind_eq, driver_call_quiet by done.
  unfold objects. simpl. rewrite Hc. simpl. rewrite Hm. unfold lift.
  by destruct (json_load lib content).
Qed.

Lemma upload_object_via_stream_quiet content container name w objs :
  quiet w -> containers w !! container = Some objs ->
  exists w',
    upload_object_via_stream content container name w = (Ok tt, w')
    /\ quiet w'
    /\ containers w' !! container = Some (<[name := content]> objs).
Proof.
  intros Hq Hc. unfold upload_object_via_stream.
  rewrite driver_call_quiet by done. rewrite Hc.
  eexists. split; [reflexivity |]. split; [exact Hq |].
  simpl. by rewrite lookup_insert_eq.
Qed.

Lemma get_package_filenames_quiet container w objs :
  quiet w -> containers w !! container = Some objs ->
  _get_package_filenames container w = (Ok (package_names objs), w).
Proof.
  intros Hq Hc. unfold _get_package_filenames, list_container_objects.
  rewrite bind_eq, driver_call_quiet by done. by rewrite Hc.
Qed.

Lemma delete_one_quiet container filename w objs :
  quiet w -> containers w !! container = Some objs ->
  exists w',
    delete_one container filename w = (Ok tt, w')
    /\ quiet w'
    /\ containers w' !! container = Some (delete filename objs).
Proof.
  intros Hq Hc. rewrite delete_one_eq, bind_eq. unfold get_object.
  rewrite driver_call_quiet by done. rewrite Hc.
  destruct (objs !! filename) as [content |] eqn:Hf.
  - unfold delete_object. rewrite driver_call_quiet by done. simpl.
    rewrite Hc, Hf. eexists. split; [reflexivity |].
    split; [exact Hq |]. simpl. by rewrite lookup_insert_eq.
  - simpl. exists w. split; [reflexivity |]. split; [exact Hq |].
    by rewrite delete_id.
Qed.


End Quiet.

(** ** The names a publish leaves in the container *)








Section QuietTasks.
Context (lib : PyLib) (fs : FileSystem).
Variable matching_dev_filenames : string -> list string -> list string.
Variable self : Uploader.

(** The matcher selects, among the existing names, the earlier builds of
    the reference, and never the reference itself. *)
Variable rel : string -> string -> bool.
Hypothesis rel_irrefl : forall f, rel f f = false.
Hypothesis matching_spec :
  forall f existing g,
    g ∈ matching_dev_filenames f existing <->
    g ∈ existing /\ rel f g = true.





End QuietTasks.

(** ** Publishing twice *)












Section Twice.
Context (lib : PyLib) (fs : FileSystem).
Variable matching_dev_filenames : string -> list string -> list string.
Variable self : Uploader.
Variable rel : string -> string -> bool.
Hypothesis rel_irrefl : forall f, rel f f = false.
Hypothesis matching_spec :
  forall f existing g,
    g ∈ matching_dev_filenames f existing <->
    g ∈ existing /\ rel f g = true.

Variables local_folder container_name : string.

Lemma scanned_paths_readable filepaths local_metadata :
  _scan_local_files lib fs local_folder = Ok (filepaths, local_metadata) ->
  Forall (fun fp => is_Some (read_file fs fp)) filepaths.
Proof.
  intros H. apply scan_local_files_inv in H
    as (names & _ & -> & Hin & _).
  apply Forall_forall. intros fp Hfp.
  apply list_elem_of_fmap in Hfp as (n & -> & Hn).
  destruct (Hin n Hn) as (content & -> & _). eauto.
Qed.




End Twice.

(** ** The concrete instance *)







(** ** The theorems at the concrete instance *)






Lemma scan_local_files_sorted_digest_witness :
  listdir Example.fs "dist"
  = Some ["pkg-1.0.dev2.whl"; ".hidden"; "sub"; "pkg-1.0.dev1.whl"]
  /\ exists local_metadata,
       _scan_local_files Example.lib Example.fs "dist"
       = Ok (map (os_path_join "dist")
               (scanned_names Example.fs "dist"
                  ["pkg-1.0.dev2.whl"; ".hidden"; "sub"; "pkg-1.0.dev1.whl"]),
             local_metadata)
       /\ StronglySorted str_le
            (scanned_names Example.fs "dist"
               ["pkg-1.0.dev2.whl"; ".hidden"; "sub"; "pkg-1.0.dev1.whl"]).
Proof.
  split; [reflexivity |].
  destruct (scan_local_files_sorted_digest Example.lib Example.fs "dist"
              ["pkg-1.0.dev2.whl"; ".hidden"; "sub"; "pkg-1.0.dev1.whl"]
              eq_refl)
    as (local_metadata & Hrun & Hsorted & _).
  - replace (scanned_names Example.fs "dist"
               ["pkg-1.0.dev2.whl"; ".hidden"; "sub"; "pkg-1.0.dev1.whl"])
      with ["pkg-1.0.dev1.whl"; "pkg-1.0.dev2.whl"]
      by (vm_compute; reflexivity).
    intros n Hn.
    apply elem_of_cons in Hn as [-> | Hn]; [vm_compute; eauto |].
    apply elem_of_cons in Hn as [-> | Hn]; [vm_compute; eauto |].
    by apply elem_of_nil in Hn.
  - exists local_metadata. split; assumption.
Defined.

Lemma load_metadata_absent_or_parsed_witness :
  make_driver Example.fresh = (Ok tt, Example.fresh)
  /\ ensure_container "wheels" Example.fresh = (Ok "wheels", Example.created)
  /\ get_object "wheels" metadata_filename Example.created
     = (Raise ObjectDoesNotExistError, Example.created)
  /\ load_metadata Example.lib "wheels" Example.created
     = (Ok (JDict ∅), Example.created).
Proof.
  assert (make_driver Example.fresh = (Ok tt, Example.fresh)) as Hd
    by reflexivity.
  assert (ensure_container "wheels" Example.fresh
          = (Ok "wheels", Example.created)) as Hc
    by (vm_compute; reflexivity).
  destruct (load_metadata_absent_or_parsed Example.lib Example.fs
              Example.matching_dev_filenames Example.uploader
              "dist" "wheels" Example.fresh Example.fresh "wheels"
              Example.created Hd Hc)
    as (Habsent & Hget & _).
  assert (get_object "wheels" metadata_filename Example.created
          = (Raise ObjectDoesNotExistError, Example.created)) as Hg.
  { apply (Hget ∅); [reflexivity | vm_compute; reflexivity | reflexivity]. }
  split; [exact Hd |]. split; [exact Hc |]. split; [exact Hg |].
  exact (proj1 (Habsent Example.created Hg)).
Defined.

Lemma prune_tolerates_missing_object_witness :
  delete_previous_dev_packages Example.uploader = true
  /\ (get_object "wheels" "pkg-1.0.dev1.whl" ≫= delete_object)
       Example.uploaded
     = (Raise ObjectDoesNotExistError, set_faults [] Example.uploaded)
  /\ upload_file Example.fs Example.matching_dev_filenames Example.uploader
       "dist/pkg-1.0.dev2.whl" "wheels" (Example.pruning 0)
     = (Ok tt, set_faults [] Example.uploaded).
Proof.
  assert ((get_object "wheels" "pkg-1.0.dev1.whl" ≫= delete_object)
            Example.uploaded
          = (Raise ObjectDoesNotExistError, set_faults [] Example.uploaded))
    as Hdel by (vm_compute; reflexivity).
  split; [reflexivity |]. split; [exact Hdel |].
  assert (make_driver (Example.pruning 0) = (Ok tt, Example.pruning 1))
    as H1 by reflexivity.
  assert (get_container "wheels" (Example.pruning 1)
          = (Ok "wheels", Example.pruning 2)) as H2
    by (vm_compute; reflexivity).
  assert (_get_package_filenames "wheels" (Example.pruning 2)
          = (Ok ["pkg-1.0.dev1.whl"], Example.pruning 3)) as H3
    by (vm_compute; reflexivity).
  assert (read_file Example.fs "dist/pkg-1.0.dev2.whl"
          = Some (Example.b "0123456789ab")) as H4
    by (vm_compute; reflexivity).
  assert (upload_object_via_stream (Example.b "0123456789ab") "wheels"
            (os_path_basename "dist/pkg-1.0.dev2.whl") (Example.pruning 3)
          = (Ok tt, Example.uploaded)) as H5
    by (vm_compute; reflexivity).
  assert (Example.matching_dev_filenames
            (os_path_basename "dist/pkg-1.0.dev2.whl") ["pkg-1.0.dev1.whl"]
          = ([] ++ "pkg-1.0.dev1.whl" :: [])%list) as H6
    by (vm_compute; reflexivity).
  assert (delete_previous "wheels" [] Example.uploaded
          = (Ok tt, Example.uploaded)) as H7 by reflexivity.
  destruct (prune_tolerates_missing_object Example.fs
              Example.matching_dev_filenames Example.uploader
              "dist/pkg-1.0.dev2.whl" "wheels"
              (Example.pruning 0) (Example.pruning 1) "wheels"
              (Example.pruning 2) ["pkg-1.0.dev1.whl"] (Example.pruning 3)
              (Example.b "0123456789ab") Example.uploaded
              [] [] "pkg-1.0.dev1.whl" Example.uploaded
              eq_refl H1 H2 H3 H4 H5 H6 H7)
    as (Habsent & _).
  destruct (Habsent _ Hdel) as [_ Hfile]. exact Hfile.
Defined.

Lemma failed_load_or_scan_mutates_nothing_witness :
  make_driver Example.fresh = (Ok tt, Example.fresh)
  /\ ensure_container "wheels" Example.fresh = (Ok "wheels", Example.created)
  /\ load_metadata Example.lib "wheels" Example.created
     = (Ok (JDict ∅), Example.created)
  /\ _scan_local_files Example.lib Example.fs "nowhere" = Raise OSError
  /\ _try_upload_once Example.lib Example.fs Example.matching_dev_filenames
       Example.uploader "nowhere" "wheels" Example.fresh
     = (Raise OSError, Example.created)
  /\ (forall c', objects Example.created c' = objects Example.fresh c').
Proof.
  assert (make_driver Example.fresh = (Ok tt, Example.fresh)) as Hd
    by reflexivity.
  assert (ensure_container "wheels" Example.fresh
          = (Ok "wheels", Example.created)) as Hc
    by (vm_compute; reflexivity).
  assert (load_metadata Example.lib "wheels" Example.created
          = (Ok (JDict ∅), Example.created)) as Hl
    by (vm_compute; reflexivity).
  assert (_scan_local_files Example.lib Example.fs "nowhere" = Raise OSError)
    as Hs by reflexivity.
  destruct (failed_load_or_scan_mutates_nothing Example.lib Example.fs
              Example.matching_dev_filenames Example.uploader
              "nowhere" "wheels" Example.fresh Example.fresh "wheels"
              Example.created Example.created OSError Hd Hc
              (or_intror (ex_intro _ (JDict ∅) (conj Hl Hs))))
    as (Hrun & Hobjs & _).
  repeat (split; [assumption |]). exact Hobjs.
Defined.

(** * Further properties of the module *)

(** ** The retry wrapper, whatever the attempt does *)

Lemma is_InvalidCredsError_true e :
  is_InvalidCredsError e = true -> e = InvalidCredsError.
Proof. by destruct e. Qed.

Lemma upload_loop_inv (attempt : Action unit) n w :
  exists es wa,
    transient_failures attempt w es wa
    /\ (length es <= n)%nat
    /\ attempt wa
       = ((upload_loop attempt n w).1.1, (upload_loop attempt n w).1.2)
    /\ (upload_loop attempt n w).2 = retry_trace (length es).
Proof.
  revert w. induction n as [| n IH]; intros w; simpl;
    destruct (attempt w) as [[[] | e] w'] eqn:Hrun.
  - exists [], w. split; [constructor |]. by repeat split.
  - exists [], w. split; [constructor |]. split; [done |].
    by destruct (is_InvalidCredsError e).
  - exists [], w. split; [constructor |]. split; [simpl; lia |].
    by split.
  - destruct (is_InvalidCredsError e) eqn:He.
    + exists [], w. split; [constructor |]. split; [simpl; lia |].
      by split.
    + destruct (IH w') as (es & wa & Hes & Hlen & Hlast & Htrace).
      destruct (upload_loop attempt n w') as [[r w''] t]. simpl in *.
      exists (e :: es), wa. split; [| split; [simpl; lia | split]].
      * econstructor; [exact Hrun | | exact Hes].
        intros ->. discriminate.
      * exact Hlast.
      * simpl. by rewrite Htrace.
Qed.

(** X1.  Whatever the attempt does, [upload] calls it at most
    [max(retry_on_error, 0) + 1] times, sleeps once between two calls and
    never after the last one, retries only after errors that are not
    credential errors, and returns what its last call returned. *)
Theorem upload_returns_last_attempt
    (attempt : Action unit) (retry_on_error : Z) (w : Env) :
  exists es wa,
    transient_failures attempt w es wa
    /\ (length es <= Z.to_nat retry_on_error)%nat
    /\ attempt wa
       = ((upload_with attempt retry_on_error w).1.1,
          (upload_with attempt retry_on_error w).1.2)
    /\ (upload_with attempt retry_on_error w).2 = retry_trace (length es)
    /\ count_attempts (upload_with attempt retry_on_error w).2
       = S (length es)
    /\ count_sleeps (upload_with attempt retry_on_error w).2 = length es.
Proof.
  unfold upload_with.
  destruct (upload_loop_inv attempt (Z.to_nat retry_on_error) w)
    as (es & wa & Hes & Hlen & Hlast & Htrace).
  exists es, wa. rewrite Htrace.
  split; [exact Hes |]. split; [exact Hlen |]. split; [exact Hlast |].
  split; [reflexivity |].
  split; [apply count_attempts_retry_trace | apply count_sleeps_retry_trace].
Qed.

(** X2.  When the adapter rejects the credentials at its first call,
    [upload] raises [InvalidCredsError] after a single attempt and leaves
    the store as it was: no container is created, no object is written. *)
Theorem upload_rejected_credentials_changes_nothing
    lib fs matching_dev_filenames self local_folder container_name
    (retry_on_error : Z) (w : Env) (schedule : list (option exn)) :
  faults w = Some InvalidCredsError :: schedule ->
  exists w',
    upload lib fs matching_dev_filenames self local_folder container_name
      retry_on_error w
    = (Raise InvalidCredsError, w', [Attempt])
    /\ containers w' = containers w
    /\ history w' = history w.
Proof.
  intros H. exists (set_faults schedule w).
  unfold upload. rewrite upload_with_unfold.
  by rewrite (try_upload_once_rejected _ _ _ _ _ _ _ _ H).
Qed.

Lemma upload_rejected_credentials_changes_nothing_witness :
  faults Example.rejecting = [Some InvalidCredsError]
  /\ exists w',
       upload Example.lib Example.fs Example.matching_dev_filenames
         Example.uploader "dist" "wheels" 3 Example.rejecting
       = (Raise InvalidCredsError, w', [Attempt])
       /\ containers w' = containers Example.rejecting
       /\ history w' = history Example.rejecting.
Proof.
  split; [reflexivity |].
  apply (upload_rejected_credentials_changes_nothing Example.lib Example.fs
           Example.matching_dev_filenames Example.uploader "dist" "wheels"
           3 Example.rejecting []).
  reflexivity.
Defined.

Section Unlistable.
Context (lib : PyLib) (fs : FileSystem).
Variable matching_dev_filenames : string -> list string -> list string.
Variable self : Uploader.
Variables local_folder container_name : string.

Hypothesis unlistable : listdir fs local_folder = None.

Lemma attempt_unlistable w :
  quiet w ->
  (forall content,
     objects w container_name !! metadata_filename = Some content ->
     is_Some (json_load lib content)) ->
  exists w1,
    _try_upload_once lib fs matching_dev_filenames self
      local_folder container_name w = (Raise OSError, w1)
    /\ quiet w1
    /\ (forall c, objects w1 c = objects w c).
Proof.
  intros Hq Hparse.
  destruct (ensure_container_quiet container_name w Hq)
    as (w1 & objs & Hc & Hq1 & Hc1 & Hobjs).
  apply ensure_container_effect in Hc as Heff. destruct Heff as (Hsame & _).
  exists w1.
  rewrite (try_upload_once_steps lib fs matching_dev_filenames self
             local_folder container_name w w container_name w1
             (make_driver_quiet w Hq) Hc).
  rewrite (load_metadata_quiet lib _ _ _ Hq1 Hc1).
  assert (forall metadata,
            publish_with lib fs matching_dev_filenames self local_folder
              container_name container_name metadata w1
            = (Raise OSError, w1)) as Hpub.
  { intros metadata. unfold publish_with, _scan_local_files.
    rewrite bind_eq. unfold lift. by rewrite unlistable. }
  split; [| split; [exact Hq1 | exact Hsame]].
  destruct (objs !! metadata_filename) as [content |] eqn:Hm;
    [| apply Hpub].
  subst objs. destruct (Hparse content Hm) as [metadata ->]. apply Hpub.
Qed.

Lemma upload_loop_unlistable n w :
  quiet w ->
  (forall content,
     objects w container_name !! metadata_filename = Some content ->
     is_Some (json_load lib content)) ->
  exists w',
    upload_loop
      (_try_upload_once lib fs matching_dev_filenames self
         local_folder container_name) n w
    = (Raise OSError, w', retry_trace n)
    /\ (forall c, objects w' c = objects w c).
Proof.
  revert w. induction n as [| n IH]; intros w Hq Hparse;
    destruct (attempt_unlistable w Hq Hparse) as (w1 & Hrun & Hq1 & Hsame).
  - exists w1. simpl. by rewrite Hrun.
  - destruct (IH w1 Hq1) as (w' & Hloop & Hsame').
    { intros content. rewrite Hsame. apply Hparse. }
    exists w'. simpl. rewrite Hrun. simpl. rewrite Hloop.
    split; [reflexivity |]. intros c. by rewrite Hsame', Hsame.
Qed.

(** X3.  A local folder that cannot be listed is not told apart from a
    transient failure: on a store without scheduled failures whose
    manifest, if any, parses, [upload] makes all of its
    [max(retry_on_error, 0) + 1] attempts, sleeping in between, raises
    [OSError], and leaves every container's objects as they were. *)
Theorem upload_unlistable_folder_exhausts_retries
    (retry_on_error : Z) (w : Env) :
  quiet w ->
  (forall content,
     objects w container_name !! metadata_filename = Some content ->
     is_Some (json_load lib content)) ->
  exists w',
    upload lib fs matching_dev_filenames self local_folder container_name
      retry_on_error w
    = (Raise OSError, w', retry_trace (Z.to_nat retry_on_error))
    /\ (forall c, objects w' c = objects w c).
Proof. intros Hq Hparse. by apply upload_loop_unlistable. Qed.

End Unlistable.

Lemma upload_unlistable_folder_exhausts_retries_witness :
  listdir Example.fs "nowhere" = None
  /\ quiet Example.fresh
  /\ exists w',
       upload Example.lib Example.fs Example.matching_dev_filenames
         Example.uploader "nowhere" "wheels" 3 Example.fresh
       = (Raise OSError, w', retry_trace 3)
       /\ (forall c, objects w' c = objects Example.fresh c).
Proof.
  split; [reflexivity |]. split; [reflexivity |].
  apply (upload_unlistable_folder_exhausts_retries Example.lib Example.fs
           Example.matching_dev_filenames Example.uploader
           "nowhere" "wheels" eq_refl 3 Example.fresh eq_refl).
  intros content Hc. vm_compute in Hc. discriminate.
Defined.

(** ** The scanner's edge cases *)

Lemma str_le_antisym : AntiSymm (=) str_le.
Proof. intros s t Hst Hts. by apply String.leb_antisym. Qed.

Lemma sorted_Permutation l1 l2 : l1 ≡ₚ l2 -> sorted l1 = sorted l2.
Proof.
  intros Hperm.
  apply (@StronglySorted_unique _ str_le str_le_antisym);
    [apply sorted_StronglySorted | apply sorted_StronglySorted |].
  unfold sorted. by rewrite !merge_sort_Permutation.
Qed.

Lemma scan_loop_fs_ext lib fs1 fs2 local_folder names filepaths md :
  (forall p, isdir fs1 p = isdir fs2 p) ->
  (forall p, read_file fs1 p = read_file fs2 p) ->
  scan_loop lib fs1 local_folder names filepaths md
  = scan_loop lib fs2 local_folder names filepaths md.
Proof.
  intros Hdir Hread. revert filepaths md.
  induction names as [| n names IH]; intros filepaths md; simpl;
    [reflexivity |].
  rewrite Hdir, Hread.
  destruct (startswith n "."); [apply IH |].
  destruct (isdir fs2 (os_path_join local_folder n)); [apply IH |].
  destruct (read_file fs2 (os_path_join local_folder n)); [apply IH | done].
Qed.

(** X4.  The scan does not depend on the order in which the system lists
    the directory: two file systems with the same files whose listings of
    the folder are permutations of each other give the same paths, in the
    same order, and the same manifest. *)
Theorem scan_local_files_order_independent
    lib fs1 fs2 local_folder names1 names2 :
  listdir fs1 local_folder = Some names1 ->
  listdir fs2 local_folder = Some names2 ->
  names1 ≡ₚ names2 ->
  (forall p, isdir fs1 p = isdir fs2 p) ->
  (forall p, read_file fs1 p = read_file fs2 p) ->
  _scan_local_files lib fs1 local_folder
  = _scan_local_files lib fs2 local_folder.
Proof.
  intros H1 H2 Hperm Hdir Hread. unfold _scan_local_files.
  rewrite H1, H2, (sorted_Permutation _ _ Hperm).
  by apply scan_loop_fs_ext.
Qed.

Lemma scan_local_files_order_independent_witness :
  ["pkg-1.0.dev2.whl"; ".hidden"; "sub"; "pkg-1.0.dev1.whl"]
  ≡ₚ ["sub"; "pkg-1.0.dev1.whl"; "pkg-1.0.dev2.whl"; ".hidden"]
  /\ _scan_local_files Example.lib Example.fs "dist"
     = _scan_local_files Example.lib Edge.shuffled_fs "dist".
Proof.
  assert (["pkg-1.0.dev2.whl"; ".hidden"; "sub"; "pkg-1.0.dev1.whl"]
          ≡ₚ ["sub"; "pkg-1.0.dev1.whl"; "pkg-1.0.dev2.whl"; ".hidden"])
    as Hperm.
  { exact (Permutation_app_comm ["pkg-1.0.dev2.whl"; ".hidden"]
             ["sub"; "pkg-1.0.dev1.whl"]). }
  split; [exact Hperm |].
  apply (scan_local_files_order_independent Example.lib Example.fs
           Edge.shuffled_fs "dist" _ _ eq_refl eq_refl Hperm);
    intros p; reflexivity.
Defined.

Lemma scan_loop_Raise lib fs local_folder names filepaths md e :
  scan_loop lib fs local_folder names filepaths md = Raise e -> e = OSError.
Proof.
  revert filepaths md. induction names as [| n names IH];
    intros filepaths md; simpl; [discriminate |].
  destruct (startswith n "."); [apply IH |].
  destruct (isdir fs (os_path_join local_folder n)); [apply IH |].
  destruct (read_file fs (os_path_join local_folder n)); [apply IH |].
  intros H. by simplify_eq.
Qed.

(** X5.  One file that cannot be read aborts the whole scan: when a name
    the scanner keeps (not hidden, not a directory) cannot be read,
    [_scan_local_files] raises [OSError] and returns no partial manifest;
    a directory that cannot be listed raises [OSError] as well. *)
Theorem scan_local_files_unreadable_aborts lib fs local_folder :
  (listdir fs local_folder = None ->
   _scan_local_files lib fs local_folder = Raise OSError)
  /\ (forall names n,
        listdir fs local_folder = Some names ->
        n ∈ scanned_names fs local_folder names ->
        read_file fs (os_path_join local_folder n) = None ->
        _scan_local_files lib fs local_folder = Raise OSError).
Proof.
  split.
  - intros H. unfold _scan_local_files. by rewrite H.
  - intros names n Hlist Hn Hread. unfold _scan_local_files. rewrite Hlist.
    destruct (scan_loop lib fs local_folder (sorted names) [] ∅)
      as [x | e] eqn:Hscan.
    + destruct (scan_loop_readable lib fs _ _ _ _ _ Hscan n Hn) as [c Hc].
      congruence.
    + by apply scan_loop_Raise in Hscan as ->.
Qed.

Lemma scan_local_files_unreadable_aborts_witness :
  listdir Edge.broken_fs "dist" = Some ["gone.whl"]
  /\ "gone.whl" ∈ scanned_names Edge.broken_fs "dist" ["gone.whl"]
  /\ read_file Edge.broken_fs (os_path_join "dist" "gone.whl") = None
  /\ _scan_local_files Example.lib Edge.broken_fs "dist" = Raise OSError.
Proof.
  assert ("gone.whl" ∈ scanned_names Edge.broken_fs "dist" ["gone.whl"])
    as Hn by (vm_compute; left).
  split; [reflexivity |]. split; [exact Hn |]. split; [reflexivity |].
  exact (proj2 (scan_local_files_unreadable_aborts Example.lib
                  Edge.broken_fs "dist")
           ["gone.whl"] "gone.whl" eq_refl Hn eq_refl).
Defined.

(** ** A manifest that is not what the module expects *)

Lemma ensure_container_existing container_name w objs :
  quiet w -> containers w !! container_name = Some objs ->
  ensure_container container_name w = (Ok container_name, w).
Proof.
  intros Hq Hc. unfold ensure_container, try_except.
  by rewrite (get_container_quiet _ _ _ Hq Hc).
Qed.

(** X6.  A metadata object that does not parse is not taken for a missing
    one: on a store without scheduled failures the attempt raises
    [ValueError] right after reading it, and the store is left exactly as
    it was. *)
Theorem corrupt_manifest_is_fatal
    lib fs matching_dev_filenames self local_folder container_name
    (w : Env) (objs : gmap string bytes) (content : bytes) :
  quiet w ->
  containers w !! container_name = Some objs ->
  objs !! metadata_filename = Some content ->
  json_load lib content = None ->
  _try_upload_once lib fs matching_dev_filenames self
    local_folder container_name w = (Raise ValueError, w).
Proof.
  intros Hq Hc Hm Hparse.
  rewrite (try_upload_once_steps lib fs matching_dev_filenames self
             local_folder container_name w w container_name w
             (make_driver_quiet w Hq)
             (ensure_container_existing _ _ _ Hq Hc)).
  by rewrite (load_metadata_quiet lib _ _ _ Hq Hc), Hm, Hparse.
Qed.

Lemma corrupt_manifest_is_fatal_witness :
  json_load Example.lib (Example.b "garbage") = None
  /\ _try_upload_once Example.lib Example.fs Example.matching_dev_filenames
       Example.uploader "dist" "wheels"
       (Edge.with_manifest (Example.b "garbage"))
     = (Raise ValueError, Edge.with_manifest (Example.b "garbage")).
Proof.
  split; [vm_compute; reflexivity |].
  apply (corrupt_manifest_is_fatal Example.lib Example.fs
           Example.matching_dev_filenames Example.uploader "dist" "wheels"
           (Edge.with_manifest (Example.b "garbage"))
           (<[metadata_filename := Example.b "garbage"]> ∅)
           (Example.b "garbage"));
    vm_compute; reflexivity.
Defined.

(** X7.  A manifest that parses to something other than a JSON object
    (a list, a string, a number, [null]) makes the attempt raise
    [AttributeError] once the folder is scanned, before any file is
    uploaded: the store is left exactly as it was. *)
Theorem non_object_manifest_raises_before_upload
    lib fs matching_dev_filenames self local_folder container_name
    (w : Env) (objs : gmap string bytes) (content : bytes) (manifest : json)
    filepaths local_metadata :
  quiet w ->
  containers w !! container_name = Some objs ->
  objs !! metadata_filename = Some content ->
  json_load lib content = Some manifest ->
  (forall d, manifest <> JDict d) ->
  _scan_local_files lib fs local_folder = Ok (filepaths, local_metadata) ->
  _try_upload_once lib fs matching_dev_filenames self
    local_folder container_name w = (Raise AttributeError, w).
Proof.
  intros Hq Hc Hm Hparse Hshape Hscan.
  rewrite (try_upload_once_steps lib fs matching_dev_filenames self
             local_folder container_name w w container_name w
             (make_driver_quiet w Hq)
             (ensure_container_existing _ _ _ Hq Hc)).
  rewrite (load_metadata_quiet lib _ _ _ Hq Hc), Hm, Hparse.
  unfold publish_with. rewrite bind_eq. unfold lift at 1. rewrite Hscan.
  rewrite bind_eq. unfold lift at 1.
  destruct manifest as [| | | | | d]; try reflexivity.
  by destruct (Hshape d).
Qed.

Lemma non_object_manifest_raises_before_upload_witness :
  json_load Edge.lib (Example.b "[]") = Some (JList [])
  /\ _try_upload_once Edge.lib Example.fs Example.matching_dev_filenames
       Example.uploader "dist" "wheels"
       (Edge.with_manifest (Example.b "[]"))
     = (Raise AttributeError, Edge.with_manifest (Example.b "[]")).
Proof.
  split; [vm_compute; reflexivity |].
  apply (non_object_manifest_raises_before_upload Edge.lib Example.fs
           Example.matching_dev_filenames Example.uploader "dist" "wheels"
           (Edge.with_manifest (Example.b "[]"))
           (<[metadata_filename := Example.b "[]"]> ∅)
           (Example.b "[]") (JList [])
           Example.filepaths Example.local_metadata);
    try (vm_compute; reflexivity).
  intros d. discriminate.
Defined.

Lemma index_line_Raise lib metadata filename e :
  index_line lib metadata filename = Raise e -> e = AttributeError.
Proof.
  unfold index_line, json_get.
  destruct (default (JDict ∅) (metadata !! filename)) as [| | | | | d];
    simpl; try (intros H; by simplify_eq).
  destruct (dict_get d "sha256"); discriminate.
Qed.

Lemma index_line_non_dict lib metadata filename v :
  metadata !! filename = Some v -> (forall d, v <> JDict d) ->
  index_line lib metadata filename = Raise AttributeError.
Proof.
  intros Hv Hshape. unfold index_line. rewrite Hv. simpl.
  destruct v as [| | | | | d]; try reflexivity. by destruct (Hshape d).
Qed.

Lemma index_loop_Raise lib metadata names payload n :
  n ∈ names ->
  index_line lib metadata n = Raise AttributeError ->
  index_loop lib metadata names payload = Raise AttributeError.
Proof.
  revert payload. induction names as [| m names IH]; intros payload Hn Hline;
    [by apply elem_of_nil in Hn |].
  simpl. destruct (index_line lib metadata m) as [line | e] eqn:Hm.
  - apply IH; [| exact Hline].
    apply elem_of_cons in Hn as [-> | Hn]; [congruence | exact Hn].
  - by apply index_line_Raise in Hm as ->.
Qed.

(** X8.  One manifest entry that is not a JSON object is enough to stop
    the index: when the container lists a package whose manifest entry is
    a number, a string, a list or [null], [_update_index] raises
    [AttributeError] and writes nothing, on a store without scheduled
    failures. *)
Theorem update_index_non_dict_entry
    lib (c : string) (metadata : gmap string json) (w : Env)
    (objs : gmap string bytes) (n : string) (v : json) :
  quiet w ->
  containers w !! c = Some objs ->
  n ∈ package_names objs ->
  metadata !! n = Some v ->
  (forall d, v <> JDict d) ->
  _update_index lib c metadata w = (Raise AttributeError, w).
Proof.
  intros Hq Hc Hn Hv Hshape. unfold _update_index.
  rewrite bind_eq, (get_package_filenames_quiet _ _ _ Hq Hc), bind_eq.
  unfold lift.
  by rewrite (index_loop_Raise lib metadata _ _ n Hn
                (index_line_non_dict lib metadata n v Hv Hshape)).
Qed.

Lemma update_index_non_dict_entry_witness :
  "pkg-1.0.dev1.whl"
  ∈ package_names (<["pkg-1.0.dev1.whl" := Example.b "old"]> ∅)
  /\ _update_index Example.lib "wheels"
       (<["pkg-1.0.dev1.whl" := JInt 1]> ∅) Edge.two_containers
     = (Raise AttributeError, Edge.two_containers).
Proof.
  assert ("pkg-1.0.dev1.whl"
          ∈ package_names (<["pkg-1.0.dev1.whl" := Example.b "old"]> ∅))
    as Hn by (vm_compute; left).
  split; [exact Hn |].
  apply (update_index_non_dict_entry Example.lib "wheels"
           (<["pkg-1.0.dev1.whl" := JInt 1]> ∅) Edge.two_containers
           (<["pkg-1.0.dev1.whl" := Example.b "old"]> ∅)
           "pkg-1.0.dev1.whl" (JInt 1)); done.
Defined.

(** ** Single upload tasks *)

Section TaskEdges.
Context (fs : FileSystem).
Variable matching_dev_filenames : string -> list string -> list string.
Variable self : Uploader.

(** X9.  [upload_file] does not create containers and uploads nothing it
    cannot read: on a store without scheduled failures, a missing
    container makes it raise [ContainerDoesNotExistError], an unreadable
    file makes it raise [OSError], and in both cases the store is left
    exactly as it was, whether pruning is enabled or not. *)
Theorem upload_file_fails_without_mutation
    (filepath container_name : string) (w : Env) :
  quiet w ->
  (containers w !! container_name = None ->
   upload_file fs matching_dev_filenames self filepath container_name w
   = (Raise ContainerDoesNotExistError, w))
  /\ (is_Some (containers w !! container_name) ->
      read_file fs filepath = None ->
      upload_file fs matching_dev_filenames self filepath container_name w
      = (Raise OSError, w)).
Proof.
  intros Hq. split.
  - intros Hc. unfold upload_file.
    rewrite bind_eq, (make_driver_quiet w Hq), bind_eq.
    unfold get_container. rewrite driver_call_quiet by done. by rewrite Hc.
  - intros [objs Hc] Hr. unfold upload_file.
    rewrite bind_eq, (make_driver_quiet w Hq), bind_eq.
    rewrite (get_container_quiet _ _ _ Hq Hc), bind_eq.
    destruct (delete_previous_dev_packages self).
    + rewrite bind_eq, (get_package_filenames_quiet _ _ _ Hq Hc), ret_eq.
      rewrite bind_eq. unfold lift. by rewrite Hr.
    + rewrite ret_eq, bind_eq. unfold lift. by rewrite Hr.
Qed.

(** X10.  With pruning disabled, a successful [upload_file] is a single
    mutation: the object named after the file's basename is set to the
    file's content, every other object of the container stays, and the
    store sees one put and nothing else. *)
Theorem upload_file_without_pruning_puts_one_object
    (filepath container_name : string) (w : Env)
    (objs : gmap string bytes) (content : bytes) :
  delete_previous_dev_packages self = false ->
  quiet w ->
  containers w !! container_name = Some objs ->
  read_file fs filepath = Some content ->
  exists w',
    upload_file fs matching_dev_filenames self filepath container_name w
    = (Ok tt, w')
    /\ quiet w'
    /\ containers w'
       = <[container_name := <[os_path_basename filepath := content]> objs]>
           (containers w)
    /\ history w'
       = (history w
          ++ [EvPut container_name (os_path_basename filepath) content])%list.
Proof.
  intros Hflag Hq Hc Hr. unfold upload_file.
  rewrite bind_eq, (make_driver_quiet w Hq), bind_eq.
  rewrite (get_container_quiet _ _ _ Hq Hc), Hflag, bind_eq, ret_eq.
  rewrite bind_eq. unfold lift. rewrite Hr, bind_eq.
  unfold upload_object_via_stream.
  rewrite driver_call_quiet by done. rewrite Hc. simpl. rewrite ret_eq.
  eexists. split; [reflexivity |]. by repeat split.
Qed.

Lemma delete_previous_quiet_lookup container filenames w objs :
  quiet w -> containers w !! container = Some objs ->
  exists w' objs',
    delete_previous container filenames w = (Ok tt, w')
    /\ quiet w'
    /\ containers w' !! container = Some objs'
    /\ (forall n, n ∈ filenames -> objs' !! n = None)
    /\ (forall n, n ∉ filenames -> objs' !! n = objs !! n).
Proof.
  revert w objs. induction filenames as [| f rest IH]; intros w objs Hq Hc.
  - exists w, objs. simpl. rewrite ret_eq.
    split; [done |]. split; [done |]. split; [done |]. split; [| done].
    intros n Hn. by apply elem_of_nil in Hn.
  - destruct (delete_one_quiet container f w objs Hq Hc)
      as (w1 & Hone & Hq1 & Hc1).
    destruct (IH w1 _ Hq1 Hc1)
      as (w' & objs' & Hrest & Hq' & Hc' & Hin & Hout).
    exists w', objs'. simpl. rewrite bind_eq, Hone.
    split; [done |]. split; [done |]. split; [done |]. split.
    + intros n Hn. destruct (decide (n ∈ rest)) as [Hr | Hr];
        [by apply Hin |].
      apply elem_of_cons in Hn as [-> | Hn]; [| done].
      rewrite (Hout f Hr). apply lookup_delete_eq.
    + intros n Hn. apply not_elem_of_cons in Hn as [Hne Hn].
      rewrite (Hout n Hn). by apply lookup_delete_ne.
Qed.

(** X11.  With pruning enabled, a successful [upload_file] removes
    exactly the names the matcher returned for the listing taken before
    the upload, the uploaded file included if the matcher returns it;
    every other object is as after the upload alone.  This holds for any
    matcher, on a store without scheduled failures. *)
Theorem upload_file_prunes_exactly_the_matches
    (filepath container_name : string) (w : Env)
    (objs : gmap string bytes) (content : bytes) :
  delete_previous_dev_packages self = true ->
  quiet w ->
  containers w !! container_name = Some objs ->
  read_file fs filepath = Some content ->
  exists w' objs',
    upload_file fs matching_dev_filenames self filepath container_name w
    = (Ok tt, w')
    /\ containers w' !! container_name = Some objs'
    /\ (forall n,
          n ∈ matching_dev_filenames (os_path_basename filepath)
                (package_names objs) ->
          objs' !! n = None)
    /\ (forall n,
          n ∉ matching_dev_filenames (os_path_basename filepath)
                (package_names objs) ->
          objs' !! n = <[os_path_basename filepath := content]> objs !! n).
Proof.
  intros Hflag Hq Hc Hr.
  destruct (upload_object_via_stream_quiet content container_name
              (os_path_basename filepath) w objs Hq Hc)
    as (w4 & Hput & Hq4 & Hc4).
  rewrite (upload_file_steps fs matching_dev_filenames self filepath
             container_name w w container_name w (package_names objs)
             w content w4 Hflag (make_driver_quiet w Hq)
             (get_container_quiet _ _ _ Hq Hc)
             (get_package_filenames_quiet _ _ _ Hq Hc) Hr Hput).
  destruct (delete_previous_quiet_lookup container_name
              (matching_dev_filenames (os_path_basename filepath)
                 (package_names objs)) w4 _ Hq4 Hc4)
    as (w' & objs' & Hdel & _ & Hc' & Hin & Hout).
  exists w', objs'. by repeat split.
Qed.

End TaskEdges.

Lemma upload_file_fails_without_mutation_witness :
  quiet Example.fresh
  /\ upload_file Example.fs Example.matching_dev_filenames Example.uploader
       "dist/pkg-1.0.dev1.whl" "wheels" Example.fresh
     = (Raise ContainerDoesNotExistError, Example.fresh)
  /\ upload_file Example.fs Example.matching_dev_filenames Example.uploader
       "dist/missing.whl" "wheels" Example.created
     = (Raise OSError, Example.created).
Proof.
  destruct (upload_file_fails_without_mutation Example.fs
              Example.matching_dev_filenames Example.uploader
              "dist/pkg-1.0.dev1.whl" "wheels" Example.fresh eq_refl)
    as [Hmissing _].
  destruct (upload_file_fails_without_mutation Example.fs
              Example.matching_dev_filenames Example.uploader
              "dist/missing.whl" "wheels" Example.created eq_refl)
    as [_ Hunreadable].
  split; [reflexivity |]. split.
  - apply Hmissing. reflexivity.
  - apply Hunreadable; [vm_compute; eauto | vm_compute; reflexivity].
Defined.

Lemma upload_file_without_pruning_puts_one_object_witness :
  delete_previous_dev_packages Edge.keeping = false
  /\ exists w',
       upload_file Example.fs Example.matching_dev_filenames Edge.keeping
         "dist/pkg-1.0.dev2.whl" "wheels" Edge.two_containers
       = (Ok tt, w')
       /\ history w'
          = [EvPut "wheels" "pkg-1.0.dev2.whl" (Example.b "0123456789ab")].
Proof.
  split; [reflexivity |].
  destruct (upload_file_without_pruning_puts_one_object Example.fs
              Example.matching_dev_filenames Edge.keeping
              "dist/pkg-1.0.dev2.whl" "wheels" Edge.two_containers
              (<["pkg-1.0.dev1.whl" := Example.b "old"]> ∅)
              (Example.b "0123456789ab"))
    as (w' & Hrun & _ & _ & Hhist); try (vm_compute; reflexivity).
  exists w'. split; [exact Hrun | exact Hhist].
Defined.

Lemma upload_file_prunes_exactly_the_matches_witness :
  delete_previous_dev_packages Example.uploader = true
  /\ exists w' objs',
       upload_file Example.fs Example.matching_dev_filenames
         Example.uploader "dist/pkg-1.0.dev2.whl" "wheels"
         Edge.two_containers
       = (Ok tt, w')
       /\ containers w' !! "wheels" = Some objs'
       /\ objs' !! "pkg-1.0.dev1.whl" = None.
Proof.
  split; [reflexivity |].
  destruct (upload_file_prunes_exactly_the_matches Example.fs
              Example.matching_dev_filenames Example.uploader
              "dist/pkg-1.0.dev2.whl" "wheels" Edge.two_containers
              (<["pkg-1.0.dev1.whl" := Example.b "old"]> ∅)
              (Example.b "0123456789ab"))
    as (w' & objs' & Hrun & Hc & Hin & _); try (vm_compute; reflexivity).
  exists w', objs'. split; [exact Hrun |]. split; [exact Hc |].
  apply Hin. vm_compute. left.
Defined.

(** ** Uploads without pruning *)

Section NoPruning.
Context (lib : PyLib) (fs : FileSystem).
Variable matching_dev_filenames : string -> list string -> list string.
Variable self : Uploader.
Hypothesis no_pruning : delete_previous_dev_packages self = false.

Lemma upload_file_no_prune_step filepath container_name w objs :
  quiet w -> containers w !! container_name = Some objs ->
  exists w',
    upload_file fs matching_dev_filenames self filepath container_name w
    = (match read_file fs filepath with
       | Some _ => Ok tt
       | None => Raise OSError
       end, w')
    /\ quiet w'
    /\ containers w' !! container_name
       = Some (match read_file fs filepath with
               | Some content => <[os_path_basename filepath := content]> objs
               | None => objs
               end).
Proof.
  intros Hq Hc. unfold upload_file.
  rewrite bind_eq, (make_driver_quiet w Hq), bind_eq.
  rewrite (get_container_quiet _ _ _ Hq Hc), no_pruning, bind_eq, ret_eq.
  rewrite bind_eq. unfold lift.
  destruct (read_file fs filepath) as [content |].
  - rewrite bind_eq.
    destruct (upload_object_via_stream_quiet content container_name
                (os_path_basename filepath) w objs Hq Hc)
      as (w' & Hput & Hq' & Hc').
    rewrite Hput. simpl. rewrite ret_eq. by exists w'.
  - by exists w.
Qed.

Lemma upload_files_no_prune_quiet filepaths container_name w objs :
  quiet w -> containers w !! container_name = Some objs ->
  exists r w' objs',
    _upload_files fs matching_dev_filenames self filepaths container_name w
    = (r, w')
    /\ quiet w'
    /\ containers w' !! container_name = Some objs'
    /\ dom objs' = basenames (filter (readable fs) filepaths) ∪ dom objs
    /\ (Forall (readable fs) filepaths -> r = Ok tt)
    /\ (~ Forall (readable fs) filepaths -> r = Raise OSError).
Proof.
  unfold _upload_files. revert w objs.
  induction filepaths as [| fp rest IH]; intros w objs Hq Hc.
  - exists (Ok tt), w, objs. simpl.
    split; [done |]. split; [done |]. split; [done |].
    split; [unfold basenames; set_solver |].
    split; [done |]. intros H. destruct H. constructor.
  - destruct (upload_file_no_prune_step fp container_name w objs Hq Hc)
      as (w1 & Hup & Hq1 & Hc1).
    destruct (IH w1 _ Hq1 Hc1)
      as (r & w' & objs' & Hrun & Hq' & Hc' & Hdom & Hok & Hfail).
    simpl. rewrite Hup.
    destruct (run_tasks _ w1) as [rs w2]. simplify_eq.
    unfold basenames in *.
    destruct (read_file fs fp) as [content |] eqn:Hr; rewrite filter_cons.
    + exists (first_error rs), w', objs'.
      split; [done |]. split; [done |]. split; [done |]. split; [| split].
      * rewrite decide_True by (unfold readable; rewrite Hr; eauto).
        rewrite Hdom, dom_insert_L, fmap_cons, list_to_set_cons.
        set_solver.
      * intros Hall. apply Hok. by apply Forall_cons in Hall as [_ ?].
      * intros Hnot. apply Hfail. intros Hall. apply Hnot.
        constructor; [unfold readable; rewrite Hr; eauto | done].
    + exists (Raise OSError), w', objs'.
      split; [done |]. split; [done |]. split; [done |]. split; [| split].
      * rewrite decide_False; [exact Hdom |].
        unfold readable. rewrite Hr. by intros [? ?].
      * intros Hall. apply Forall_cons in Hall as [[? Hc0] _].
        rewrite Hr in Hc0. discriminate.
      * done.
Qed.


Lemma filter_readable_all filepaths :
  Forall (readable fs) filepaths -> filter (readable fs) filepaths = filepaths.
Proof.
  induction 1 as [| fp rest Hfp Hrest IH]; [reflexivity |].
  rewrite filter_cons, decide_True by done. by rewrite IH.
Qed.

(** X13.  With pruning disabled, a successful attempt on a store without
    scheduled failures removes no object: the names in the container
    afterwards are the names it held before, the basenames of the scanned
    files, the manifest and, when enabled, the index. *)
Theorem publish_without_pruning_adds_names
    (local_folder container_name : string) (w w1 : Env) :
  quiet w ->
  _try_upload_once lib fs matching_dev_filenames self
    local_folder container_name w = (Ok tt, w1) ->
  exists filepaths local_metadata,
    _scan_local_files lib fs local_folder = Ok (filepaths, local_metadata)
    /\ dom (objects w1 container_name)
       = (if update_index self then {[index_filename]} else ∅)
         ∪ ({[metadata_filename]}
            ∪ (basenames filepaths ∪ dom (objects w container_name))).
Proof.
  intros Hq Hrun.
  apply try_upload_once_Ok_inv in Hrun
    as (w0 & wa & remote & w2 & filepaths & local_metadata & w3 & w4
        & Hd & Hc & Hload & Hscan & Hup & Hmanifest & Hindex).
  rewrite (make_driver_quiet w Hq) in Hd. simplify_eq.
  destruct (ensure_container_quiet container_name w0 Hq)
    as (wa' & objs & Hc' & Hqa & Hca & Hobjs).
  rewrite Hc' in Hc. simplify_eq.
  rewrite (load_metadata_quiet lib _ _ _ Hqa Hca) in Hload. simplify_eq.
  destruct (upload_files_no_prune_quiet filepaths container_name w2 _
              Hqa Hca)
    as (r & w3' & objs3 & Hup' & Hq3 & Hc3 & Hdom3 & _ & _).
  rewrite Hup' in Hup. simplify_eq.
  rewrite (filter_readable_all filepaths) in Hdom3
    by (eapply scanned_paths_readable; exact Hscan).
  apply upload_metadata_file_Ok in Hmanifest as [_ Hobjs4].
  exists filepaths, local_metadata. split; [exact Hscan |].
  assert (objects w3 container_name = objs3) as Ho3
    by (unfold objects; by rewrite Hc3).
  rewrite Ho3 in Hobjs4.
  destruct (update_index self).
  - apply update_index_Ok in Hindex as (listed & payload & Hl & _ & ->).
    assert (listed = objects w4 container_name) as ->
      by (unfold objects; by rewrite Hl).
    by rewrite Hobjs4, !dom_insert_L, Hdom3.
  - simplify_eq.
    by rewrite Hobjs4, dom_insert_L, Hdom3, (left_id_L ∅ (∪)).
Qed.

End NoPruning.


Lemma publish_without_pruning_adds_names_witness :
  delete_previous_dev_packages Edge.keeping = false
  /\ quiet Example.fresh
  /\ exists w1 filepaths local_metadata,
       _try_upload_once Example.lib Example.fs
         Example.matching_dev_filenames Edge.keeping "dist" "wheels"
         Example.fresh
       = (Ok tt, w1)
       /\ _scan_local_files Example.lib Example.fs "dist"
          = Ok (filepaths, local_metadata)
       /\ dom (objects w1 "wheels")
          = (if update_index Edge.keeping then {[index_filename]} else ∅)
            ∪ ({[metadata_filename]}
               ∪ (basenames filepaths ∪ dom (objects Example.fresh "wheels"))).
Proof.
  assert (delete_previous_dev_packages Edge.keeping = false) as Hflag
    by reflexivity.
  assert (quiet Example.fresh) as Hq by reflexivity.
  assert (fst (_try_upload_once Example.lib Example.fs
                 Example.matching_dev_filenames Edge.keeping "dist" "wheels"
                 Example.fresh) = Ok tt) as Hok
    by (vm_compute; reflexivity).
  split; [exact Hflag |]. split; [exact Hq |].
  destruct (_try_upload_once Example.lib Example.fs
              Example.matching_dev_filenames Edge.keeping "dist" "wheels"
              Example.fresh) as [r w1] eqn:Hrun.
  cbn [fst] in Hok. subst r.
  destruct (publish_without_pruning_adds_names Example.lib Example.fs
              Example.matching_dev_filenames Edge.keeping Hflag
              "dist" "wheels" Example.fresh w1 Hq Hrun)
    as (filepaths & local_metadata & Hscan & Hdom).
  exists w1, filepaths, local_metadata.
  split; [reflexivity |]. split; [exact Hscan | exact Hdom].
Defined.

(** ** What a call of [upload] may do to the store *)

Lemma confined_refl cn md w : confined cn md w w.
Proof.
  split; [done |]. split; [done |].
  exists []. split; [by rewrite app_nil_r | constructor].
Qed.

Lemma confined_trans cn md w1 w2 w3 :
  confined cn md w1 w2 -> confined cn md w2 w3 -> confined cn md w1 w3.
Proof.
  intros (Ho1 & Hk1 & e1 & Hh1 & He1) (Ho2 & Hk2 & e2 & Hh2 & He2).
  split; [| split].
  - intros c Hc. by rewrite Ho2, Ho1.
  - intros Hmd name Hin. by apply Hk2, Hk1.
  - exists (e1 ++ e2)%list. split; [by rewrite Hh2, Hh1, app_assoc |].
    by apply Forall_app.
Qed.

Lemma same_store_confined cn md w w' : same_store w w' -> confined cn md w w'.
Proof.
  intros [Hc Hh]. split; [| split].
  - intros c _. by rewrite Hc.
  - intros _ name. unfold objects. by rewrite Hc.
  - exists []. split; [by rewrite Hh, app_nil_r | constructor].
Qed.

Lemma create_container_confined cn md :
  preserves (confined cn md) (create_container cn).
Proof.
  intros w r w' H.
  apply create_container_effect in H
    as [(e & _ & Hs) | (_ & Hnone & Hc & Hh)].
  { by apply same_store_confined. }
  split; [| split].
  - intros c Hne. by rewrite Hc, lookup_insert_ne.
  - intros _ name. unfold objects at 1. rewrite Hnone. simpl.
    rewrite lookup_empty. by intros [? ?].
  - exists [EvCreateContainer cn]. split; [exact Hh |].
    constructor; [| constructor]. split; [done | discriminate].
Qed.

Lemma upload_object_via_stream_confined content cn md name :
  preserves (confined cn md) (upload_object_via_stream content cn name).
Proof.
  intros w r w' H.
  apply upload_object_via_stream_effect in H
    as [(e & _ & Hs) | (_ & objs & Hobjs & Hc & Hh)].
  { by apply same_store_confined. }
  split; [| split].
  - intros c Hne. by rewrite Hc, lookup_insert_ne.
  - intros _ n. unfold objects. rewrite Hc, Hobjs, lookup_insert_eq. simpl.
    intros Hin. apply lookup_insert_is_Some.
    destruct (decide (name = n)); [by left | by right].
  - exists [EvPut cn name content]. split; [exact Hh |].
    constructor; [| constructor]. split; [done | discriminate].
Qed.

Lemma delete_object_confined cn name :
  preserves (confined cn true) (delete_object (mkObject cn name)).
Proof.
  intros w r w' H.
  apply delete_object_effect in H
    as [(e & _ & Hs) | (_ & objs & Hobjs & _ & Hc & Hh)].
  { by apply same_store_confined. }
  simpl in *. split; [| split].
  - intros c Hne. by rewrite Hc, lookup_insert_ne.
  - discriminate.
  - exists [EvDelete cn name]. split; [exact Hh |].
    constructor; [| constructor]. done.
Qed.

(** [preserves_bind], when the continuation is only run on the values the
    first action can return. *)
Lemma preserves_bind_val (P : Env -> Env -> Prop)
    (P_trans : forall w1 w2 w3, P w1 w2 -> P w2 w3 -> P w1 w3)
    {A B} (Q : A -> Prop) (m : Action A) (f : A -> Action B) :
  preserves P m ->
  (forall w a w', m w = (Ok a, w') -> Q a) ->
  (forall a, Q a -> preserves P (f a)) ->
  preserves P (m ≫= f).
Proof.
  intros Hm HQ Hf w r w' H. rewrite bind_eq in H.
  destruct (m w) as [[a | e] w1] eqn:E.
  - eapply P_trans; [by eapply Hm |]. eapply Hf; [by eapply HQ | exact H].
  - simplify_eq. by eapply Hm.
Qed.

Lemma upload_loop_preserves (P : Env -> Env -> Prop)
    (P_trans : forall w1 w2 w3, P w1 w2 -> P w2 w3 -> P w1 w3)
    (attempt : Action unit) n w r w' t :
  preserves P attempt ->
  upload_loop attempt n w = (r, w', t) -> P w w'.
Proof.
  intros Hatt. revert w t. induction n as [| n IH]; intros w t; simpl;
    destruct (attempt w) as [[[] | e] w1] eqn:Hrun;
    try (intros H; simplify_eq; by eapply Hatt).
  - destruct (is_InvalidCredsError e); intros H; simplify_eq;
      by eapply Hatt.
  - destruct (is_InvalidCredsError e).
    + intros H; simplify_eq. by eapply Hatt.
    + destruct (upload_loop attempt n w1) as [[r' w''] t'] eqn:Hloop.
      intros H. simplify_eq.
      eapply P_trans; [by eapply Hatt | by eapply IH].
Qed.

Section Confined.
Context (lib : PyLib) (fs : FileSystem).
Variable matching_dev_filenames : string -> list string -> list string.
Variable self : Uploader.
Variable cn : string.

Ltac same_step lem :=
  let H := fresh in
  intros ? ? ? H; apply lem in H; by apply same_store_confined.

Lemma delete_one_confined filename :
  preserves (confined cn true) (delete_one cn filename).
Proof.
  unfold delete_one.
  apply (preserves_try_except _ (confined_trans cn true));
    [| apply (preserves_ret _ (confined_refl cn true))].
  apply (preserves_bind_val _ (confined_trans cn true)
           (fun obj => obj = mkObject cn filename)).
  - same_step get_object_same.
  - intros w obj w' H. by apply get_object_Ok in H as [? _].
  - intros obj ->. apply delete_object_confined.
Qed.

Lemma delete_previous_confined filenames :
  preserves (confined cn true) (delete_previous cn filenames).
Proof.
  induction filenames as [| f rest IH]; simpl.
  - apply (preserves_ret _ (confined_refl cn true)).
  - apply (preserves_bind _ (confined_trans cn true));
      [apply delete_one_confined | intros _; exact IH].
Qed.

Lemma get_package_filenames_confined md c :
  preserves (confined cn md) (_get_package_filenames c).
Proof. same_step get_package_filenames_same. Qed.

Lemma upload_file_confined filepath :
  preserves (confined cn (delete_previous_dev_packages self))
    (upload_file fs matching_dev_filenames self filepath cn).
Proof.
  unfold upload_file.
  generalize (delete_previous_dev_packages self). intros md.
  apply (preserves_bind _ (confined_trans cn md));
    [same_step make_driver_same | intros _].
  apply (preserves_bind_val _ (confined_trans cn md) (fun c => c = cn)).
  { same_step get_container_same. }
  { intros w c w' H. by apply get_container_Ok in H as [? _]. }
  intros c ->.
  apply (preserves_bind _ (confined_trans cn md)).
  { destruct md; [| apply (preserves_ret _ (confined_refl cn false))].
    apply (preserves_bind _ (confined_trans cn true));
      [apply get_package_filenames_confined | intros names].
    apply (preserves_ret _ (confined_refl cn true)). }
  intros previous.
  apply (preserves_bind _ (confined_trans cn md));
    [apply (preserves_lift _ (confined_refl cn md)) | intros content].
  apply (preserves_bind _ (confined_trans cn md));
    [apply upload_object_via_stream_confined | intros _].
  destruct md; simpl.
  - destruct (negb _);
      [apply delete_previous_confined
      | apply (preserves_ret _ (confined_refl cn true))].
  - apply (preserves_ret _ (confined_refl cn false)).
Qed.

Lemma upload_files_confined filepaths :
  preserves (confined cn (delete_previous_dev_packages self))
    (_upload_files fs matching_dev_filenames self filepaths cn).
Proof.
  intros w r w' H. unfold _upload_files in H.
  destruct (run_tasks _ w) as [rs w1] eqn:Hrun. simplify_eq.
  eapply (preserves_run_tasks _ (confined_refl cn _) (confined_trans cn _));
    [| exact Hrun].
  apply Forall_forall. intros t Ht.
  apply list_elem_of_fmap in Ht as (fp & -> & _). apply upload_file_confined.
Qed.

Lemma update_index_confined md metadata :
  preserves (confined cn md) (_update_index lib cn metadata).
Proof.
  unfold _update_index.
  apply (preserves_bind _ (confined_trans cn md));
    [apply get_package_filenames_confined | intros names].
  apply (preserves_bind _ (confined_trans cn md));
    [apply (preserves_lift _ (confined_refl cn md)) | intros payload].
  apply upload_object_via_stream_confined.
Qed.

Lemma ensure_container_confined md :
  preserves (confined cn md) (ensure_container cn).
Proof.
  unfold ensure_container.
  apply (preserves_try_except _ (confined_trans cn md));
    [same_step get_container_same | apply create_container_confined].
Qed.

Lemma load_metadata_confined md c :
  preserves (confined cn md) (load_metadata lib c).
Proof. same_step (load_metadata_same lib). Qed.

Lemma try_upload_once_confined local_folder :
  preserves (confined cn (delete_previous_dev_packages self))
    (_try_upload_once lib fs matching_dev_filenames self local_folder cn).
Proof.
  set (md := delete_previous_dev_packages self).
  unfold _try_upload_once, publish_with.
  apply (preserves_bind _ (confined_trans cn md));
    [same_step make_driver_same | intros _].
  apply (preserves_bind_val _ (confined_trans cn md) (fun c => c = cn)).
  { apply ensure_container_confined. }
  { intros w c w' H. by apply ensure_container_Ok in H as [? _]. }
  intros c ->.
  apply (preserves_bind _ (confined_trans cn md));
    [apply load_metadata_confined | intros remote].
  apply (preserves_bind _ (confined_trans cn md));
    [apply (preserves_lift _ (confined_refl cn md)) | intros [fps local]].
  apply (preserves_bind _ (confined_trans cn md));
    [apply (preserves_lift _ (confined_refl cn md)) | intros merged].
  apply (preserves_bind _ (confined_trans cn md));
    [apply upload_files_confined | intros _].
  apply (preserves_bind _ (confined_trans cn md));
    [apply upload_object_via_stream_confined | intros _].
  destruct (update_index self);
    [apply update_index_confined
    | apply (preserves_ret _ (confined_refl cn md))].
Qed.

Lemma upload_confined local_folder retry_on_error w r w' t :
  upload lib fs matching_dev_filenames self local_folder cn
    retry_on_error w = (r, w', t) ->
  confined cn (delete_previous_dev_packages self) w w'.
Proof.
  unfold upload, upload_with. intros H.
  eapply (upload_loop_preserves _ (confined_trans cn _)); [| exact H].
  apply try_upload_once_confined.
Qed.

(** X14.  Whatever the driver calls do, fail or succeed, and however many
    attempts are made, a call of [upload] leaves every container but the
    one it is given as it was, and everything it makes the store do is
    done to that container. *)
Theorem upload_touches_only_its_container
    (local_folder : string) (retry_on_error : Z) (w : Env) :
  exists r w' t evs,
    upload lib fs matching_dev_filenames self local_folder cn
      retry_on_error w = (r, w', t)
    /\ (forall c, c <> cn -> containers w' !! c = containers w !! c)
    /\ history w' = (history w ++ evs)%list
    /\ Forall (fun ev => event_container ev = cn) evs.
Proof.
  destruct (upload lib fs matching_dev_filenames self local_folder cn
              retry_on_error w) as [[r w'] t] eqn:Hrun.
  apply upload_confined in Hrun as (Hothers & _ & evs & Hh & Hevs).
  exists r, w', t, evs.
  split; [reflexivity |]. split; [exact Hothers |]. split; [exact Hh |].
  eapply Forall_impl; [exact Hevs |]. by intros ev [? _].
Qed.

(** X15.  With pruning disabled a call of [upload] deletes nothing,
    whatever the driver calls do and however many attempts are made: the
    store sees no deletion, and every object name the container held is
    still in it afterwards. *)
Theorem upload_without_pruning_deletes_nothing
    (local_folder : string) (retry_on_error : Z) (w : Env) :
  delete_previous_dev_packages self = false ->
  exists r w' t evs,
    upload lib fs matching_dev_filenames self local_folder cn
      retry_on_error w = (r, w', t)
    /\ history w' = (history w ++ evs)%list
    /\ Forall (fun ev => is_delete ev = false) evs
    /\ forall name, is_Some (objects w cn !! name) ->
                    is_Some (objects w' cn !! name).
Proof.
  intros Hflag.
  destruct (upload lib fs matching_dev_filenames self local_folder cn
              retry_on_error w) as [[r w'] t] eqn:Hrun.
  apply upload_confined in Hrun as (_ & Hkeep & evs & Hh & Hevs).
  exists r, w', t, evs.
  split; [reflexivity |]. split; [exact Hh |]. split; [| by apply Hkeep].
  eapply Forall_impl; [exact Hevs |].
  intros ev [_ Hdel]. destruct (is_delete ev); [| done].
  rewrite Hflag in Hdel. by specialize (Hdel eq_refl).
Qed.

End Confined.

Lemma upload_without_pruning_deletes_nothing_witness :
  delete_previous_dev_packages Edge.keeping = false
  /\ exists r w' t evs,
       upload Example.lib Example.fs Example.matching_dev_filenames
         Edge.keeping "dist" "wheels" 3 Edge.two_containers = (r, w', t)
       /\ history w' = (history Edge.two_containers ++ evs)%list
       /\ Forall (fun ev => is_delete ev = false) evs
       /\ forall name,
            is_Some (objects Edge.two_containers "wheels" !! name) ->
            is_Some (objects w' "wheels" !! name).
Proof.
  assert (delete_previous_dev_packages Edge.keeping = false) as Hflag
    by reflexivity.
  split; [exact Hflag |].
  exact (upload_without_pruning_deletes_nothing Example.lib Example.fs
           Example.matching_dev_filenames Edge.keeping "wheels" "dist" 3
           Edge.two_containers Hflag).
Defined.

(** ** The CDN entry point *)

(** X16.  [get_container_cdn_url] on a container that does not exist
    raises [ContainerDoesNotExistError] before any of the CDN calls of
    the driver is made: whatever those calls would do, the store is left
    as it was. *)
Theorem cdn_url_of_missing_container
    (cdn : CdnDriver) (container_name : string) (w : Env) :
  quiet w -> containers w !! container_name = None ->
  get_container_cdn_url cdn container_name w
  = (Raise ContainerDoesNotExistError, w).
Proof.
  intros Hq Hnone. unfold get_container_cdn_url.
  rewrite bind_eq, (make_driver_quiet w Hq), bind_eq.
  unfold get_container, driver_call. unfold quiet in Hq.
  by rewrite Hq, Hnone.
Qed.

Lemma cdn_url_of_missing_container_witness :
  quiet Example.fresh
  /\ containers Example.fresh !! "wheels" = None
  /\ get_container_cdn_url Edge.cdn "wheels" Example.fresh
     = (Raise ContainerDoesNotExistError, Example.fresh).
Proof.
  assert (quiet Example.fresh) as Hq by reflexivity.
  assert (containers Example.fresh !! "wheels" = None) as Hnone
    by (vm_compute; reflexivity).
  split; [exact Hq |]. split; [exact Hnone |].
  exact (cdn_url_of_missing_container Edge.cdn "wheels" Example.fresh
           Hq Hnone).
Defined.

(** ** Listing the packages, and reading the manifest back *)

(** X17.  Whatever the driver does, [_get_package_filenames] changes
    nothing in the store.  When it returns, the container exists and the
    names returned are, each once, the names of its objects that end
    neither in [.json] nor in [.html]: the index and the manifest are
    never among them. *)
Theorem get_package_filenames_lists_packages_once
    (c : string) (w : Env) (r : result (list string)) (w' : Env) :
  _get_package_filenames c w = (r, w') ->
  same_store w w'
  /\ forall names, r = Ok names ->
       exists objs,
         containers w !! c = Some objs
         /\ NoDup names
         /\ (forall n, n ∈ names <->
                       n ∈ dom objs /\ endswith n ".json" = false
                       /\ endswith n ".html" = false)
         /\ (index_filename ∉ names)
         /\ (metadata_filename ∉ names).
Proof.
  intros Hrun. split; [by eapply get_package_filenames_same |].
  intros names ->. unfold _get_package_filenames in Hrun.
  rewrite bind_eq in Hrun.
  destruct (list_container_objects c w) as [[listed | e] w1] eqn:Hl;
    [| discriminate].
  rewrite ret_eq in Hrun.
  apply list_container_objects_Ok in Hl as (objs & Hc & ->).
  assert (names = package_names objs) as -> by (by simplify_eq).
  exists objs. split; [exact Hc |]. split; [apply package_names_NoDup |].
  split; [intros n; apply elem_of_package_names |].
  split; intros Hin; apply elem_of_package_names in Hin as (_ & H1 & H2);
    vm_compute in H1, H2; discriminate.
Qed.

Lemma get_package_filenames_lists_packages_once_witness :
  _get_package_filenames "wheels" Example.published
  = (Ok ["pkg-1.0.dev2.whl"], Example.published)
  /\ same_store Example.published Example.published
  /\ exists objs,
       containers Example.published !! "wheels" = Some objs
       /\ NoDup ["pkg-1.0.dev2.whl"]
       /\ (index_filename ∉ ["pkg-1.0.dev2.whl"]).
Proof.
  assert (_get_package_filenames "wheels" Example.published
          = (Ok ["pkg-1.0.dev2.whl"], Example.published)) as Hrun
    by (vm_compute; reflexivity).
  split; [exact Hrun |].
  destruct (get_package_filenames_lists_packages_once "wheels"
              Example.published (Ok ["pkg-1.0.dev2.whl"]) Example.published
              Hrun) as [Hsame Hnames].
  split; [exact Hsame |].
  destruct (Hnames _ eq_refl) as (objs & Hc & Hnd & _ & Hindex & _).
  exists objs. split; [exact Hc |]. split; [exact Hnd | exact Hindex].
Defined.

(** X18.  What [_upload_metadata_file] writes is what the next attempt
    reads: if the codec reads back the document it writes for [metadata],
    then after a successful write of the manifest, on a store without
    scheduled failures, the manifest loaded from the container is
    [metadata], and loading it changes nothing. *)
Theorem manifest_written_is_manifest_loaded
    (lib : PyLib) (c : string) (metadata : gmap string json) (w w' : Env) :
  json_load lib (json_dumps lib (JDict metadata)) = Some (JDict metadata) ->
  _upload_metadata_file lib c metadata w = (Ok tt, w') ->
  quiet w' ->
  load_metadata lib c w' = (Ok (JDict metadata), w').
Proof.
  intros Hcodec Hput Hq. unfold _upload_metadata_file in Hput.
  apply upload_object_via_stream_effect in Hput
    as [(e & He & _) | (_ & objs & _ & Hc & _)]; [discriminate |].
  rewrite (load_metadata_quiet lib c w'
             (<[metadata_filename := json_dumps lib (JDict metadata)]> objs)
             Hq) by (by rewrite Hc, lookup_insert_eq).
  by rewrite lookup_insert_eq, Hcodec.
Qed.

Lemma manifest_written_is_manifest_loaded_witness :
  exists w',
    _upload_metadata_file Example.lib "wheels" Example.local_metadata
      Example.created = (Ok tt, w')
    /\ quiet w'
    /\ load_metadata Example.lib "wheels" w'
       = (Ok (JDict Example.local_metadata), w').
Proof.
  set (w' := (_upload_metadata_file Example.lib "wheels"
                Example.local_metadata Example.created).2).
  assert (json_load Example.lib
            (json_dumps Example.lib (JDict Example.local_metadata))
          = Some (JDict Example.local_metadata)) as Hcodec
    by (vm_compute; reflexivity).
  assert (_upload_metadata_file Example.lib "wheels" Example.local_metadata
            Example.created = (Ok tt, w')) as Hput
    by (vm_compute; reflexivity).
  assert (quiet w') as Hq by (vm_compute; reflexivity).
  exists w'. split; [exact Hput |]. split; [exact Hq |].
  exact (manifest_written_is_manifest_loaded Example.lib "wheels"
           Example.local_metadata Example.created w' Hcodec Hput Hq).
Defined.
